(** * Formation tops viewer: the well-record store of [formation_tops_app.py]

    The script keeps a list of well records in the Streamlit session
    ([st.session_state.wells_data]).  One run of the script reads the widget
    values, lets the "Save Well" form append or replace a record, lets the
    "Delete Well" button filter records out, and finally builds the data frame
    that feeds the interpolated surface.

    This file embeds those parts of the script and states the properties of
    the store that the specification lists. *)

From stdpp Require Import base list strings.
From Stdlib Require Import ZArith NArith Ascii.

Local Open Scope string_scope.
Local Open Scope list_scope.

(** ** Python strings

    A Python [str] is modelled as a [string] whose characters are the code
    points 0..255. *)

Module PyStr.

(** [c.isspace()] on the code points below 256. *)
Definition is_space (c : ascii) : bool :=
  let n := nat_of_ascii c in
  (((9 <=? n) && (n <=? 13)) || ((28 <=? n) && (n <=? 32))
   || (n =? 133) || (n =? 160))%nat.

Fixpoint lstrip (s : string) : string :=
  match s with
  | EmptyString => EmptyString
  | String c r => if is_space c then lstrip r else s
  end.

Fixpoint rstrip (s : string) : string :=
  match s with
  | EmptyString => EmptyString
  | String c r =>
      match rstrip r with
      | EmptyString => if is_space c then EmptyString else String c EmptyString
      | r' => String c r'
      end
  end.

(** [s.strip()] *)
Definition strip (s : string) : string := rstrip (lstrip s).

(** [s.split(sep)] for a one-character separator: the result is never
    empty, and [n] separators give [n + 1] fields. *)
Fixpoint split (sep : ascii) (s : string) : list string :=
  match s with
  | EmptyString => [EmptyString]
  | String c r =>
      if Ascii.eqb c sep then EmptyString :: split sep r
      else match split sep r with
           | h :: t => String c h :: t
           | [] => [String c EmptyString]
           end
  end.

Definition comma : ascii := ","%char.

End PyStr.

(** ** Python floats

    The script obtains floats from [st.number_input] and from the builtin
    [float(str)].  The store never computes with them, so the development is
    parametric in the type of floats; [float] returns [None] where Python
    raises [ValueError]. *)

Class PyFloat (F : Type) := {
  float : string -> option F
}.

(** The arithmetic NumPy and pandas perform on the coordinates. *)
Class FloatArith (F : Type) := {
  of_nat : nat -> F;
  fadd : F -> F -> F;
  fsub : F -> F -> F;
  fmul : F -> F -> F;
  fdiv : F -> F -> F;
  fis_zero : F -> bool;
  fmin : F -> F -> F;
  fmax : F -> F -> F
}.

(** A concrete reading of [float(str)]: the accepted literals of the
    language reference (sign, digits with single underscores between digits,
    fraction, exponent, [inf], [infinity] and [nan] in any letter case),
    denoting the decimal value before it is rounded to a double. *)

Module FloatLit.

Inductive pyfloat : Type :=
| Finite (neg : bool) (mant : N) (exp10 : Z)
| Inf (neg : bool)
| NaN.

Definition digit_val (c : ascii) : option N :=
  let n := N_of_ascii c in
  if ((48 <=? n) && (n <=? 57))%N then Some (n - 48)%N else None.

Definition is_digit (c : ascii) : bool :=
  match digit_val c with Some _ => true | None => false end.

Definition starts_with_digit (s : string) : bool :=
  match s with
  | String c _ => is_digit c
  | EmptyString => false
  end.

(** An underscore is accepted only between two digits; accepted ones are
    dropped. *)
Fixpoint drop_underscores (prev_digit : bool) (s : string) : option string :=
  match s with
  | EmptyString => Some EmptyString
  | String c r =>
      if Ascii.eqb c "_"%char then
        if prev_digit && starts_with_digit r
        then drop_underscores false r
        else None
      else String c <$> drop_underscores (is_digit c) r
  end.

(** Reads the longest run of digits: value so far, digits read, rest. *)
Fixpoint digits (s : string) (acc : N) (cnt : nat) : N * nat * string :=
  match s with
  | EmptyString => (acc, cnt, EmptyString)
  | String c r =>
      match digit_val c with
      | Some d => digits r (acc * 10 + d)%N (S cnt)
      | None => (acc, cnt, s)
      end
  end.

Definition sign (s : string) : bool * string :=
  match s with
  | String "-" r => (true, r)
  | String "+" r => (false, r)
  | _ => (false, s)
  end.

Definition lower (c : ascii) : ascii :=
  let n := nat_of_ascii c in
  if ((65 <=? n) && (n <=? 90))%nat then ascii_of_nat (n + 32) else c.

Fixpoint lowercase (s : string) : string :=
  match s with
  | EmptyString => EmptyString
  | String c r => String (lower c) (lowercase r)
  end.

Definition exponent (s : string) : option Z :=
  match s with
  | EmptyString => Some 0%Z
  | String c r =>
      if Ascii.eqb (lower c) "e"%char then
        let '(neg, r1) := sign r in
        match digits r1 0%N 0 with
        | (_, O, _) => None
        | (e, S _, EmptyString) =>
            Some (if neg then (- Z.of_N e)%Z else Z.of_N e)
        | (_, S _, String _ _) => None
        end
      else None
  end.

Definition number (neg : bool) (s : string) : option pyfloat :=
  let '(ip, n1, r1) := digits s 0%N 0 in
  let '(m, n2, r2) :=
    match r1 with
    | String "." r => digits r ip 0
    | _ => (ip, 0, r1)
    end in
  match (n1 + n2)%nat with
  | O => None
  | S _ => e ← exponent r2; Some (Finite neg m (e - Z.of_nat n2)%Z)
  end.

Definition float_of_str (s : string) : option pyfloat :=
  s1 ← drop_underscores false (PyStr.strip s);
  let '(neg, body) := sign s1 in
  let low := lowercase body in
  if String.eqb low "inf" || String.eqb low "infinity" then Some (Inf neg)
  else if String.eqb low "nan" then Some NaN
  else number neg body.

End FloatLit.

#[export] Instance pyfloat_lit : PyFloat FloatLit.pyfloat :=
  {| float := FloatLit.float_of_str |}.

(** ** The script monad

    A run of the script mutates [st.session_state.wells_data], writes
    messages to the page and may raise.  A computation takes the run state and
    returns either the raised exception or a value, together with the state at
    that point: what was mutated before a raise stays mutated. *)

Inductive exn : Type :=
| ValueError
| KeyError (key : string).

Inductive message : Type :=
| st_error (text : string)
| st_success (text : string)
| st_warning (text : string).

Section App.

Context {F : Type} `{PyFloat F}.

(** A well record: the dict stored by the form, with its keys as fields. *)
Record well : Type := {
  well_name : string;
  x : F;
  y : F;
  formations : list string;
  depths : list F
}.

Record run : Type := {
  wells_data : list well;
  page : list message
}.

Definition script (A : Type) : Type := run -> (exn + A) * run.

Definition ret (A : Type) (a : A) : script A := fun s => (inr a, s).

Definition bind {A B} (m : script A) (k : A -> script B) : script B :=
  fun s =>
    match m s with
    | (inl e, s') => (inl e, s')
    | (inr a, s') => k a s'
    end.

Definition raise {A} (e : exn) : script A := fun s => (inl e, s).

Definition get_wells : script (list well) := fun s => (inr (wells_data s), s).

Definition set_wells (ws : list well) : script unit :=
  fun s => (inr tt, {| wells_data := ws; page := page s |}).

(** [st.error], [st.success], [st.warning] *)
Definition emit (m : message) : script unit :=
  fun s => (inr tt, {| wells_data := wells_data s; page := page s ++ [m] |}).

(** [try: body  except ValueError: handler].  The handler runs in the state
    the body had reached when it raised. *)
Definition try_except_ValueError (body handler : script unit) : script unit :=
  fun s =>
    match body s with
    | (inl ValueError, s') => handler s'
    | r => r
    end.

End App.

Arguments well F : clear implicits.
Arguments run F : clear implicits.
Arguments script F A : clear implicits.

(** [v ← c; k] and [c;; k] run [c] first and stop at its exception. *)
#[export] Instance script_ret {F} : MRet (script F) := @ret F.
#[export] Instance script_bind {F} : MBind (script F) :=
  fun A B k m => bind m k.

Section WellStore.

Context {F : Type} `{PyFloat F}.

(** [float(s)] *)
Definition py_float (s : string) : script F F :=
  match float s with
  | Some v => mret v
  | None => raise ValueError
  end.

(** [[elt(a) for a in l if cond(a)]]: the elements are visited left to
    right, each kept one is evaluated and appended to the result; an
    exception in [elt] abandons the comprehension. *)
Fixpoint list_comp {A B} (cond : A -> bool) (elt : A -> script F B)
    (l : list A) (acc : list B) : script F (list B) :=
  match l with
  | [] => mret acc
  | a :: rest =>
      if cond a
      then b ← elt a; list_comp cond elt rest (acc ++ [b])
      else list_comp cond elt rest acc
  end.

(** The values the widgets hold when the script runs. *)
Record widgets : Type := {
  well_name_text : string;      (* well_name = st.text_input(..) *)
  x_loc : F;
  y_loc : F;
  formation_names : string;
  formation_depths : string;
  edit_choice : nat;            (* position chosen in the edit selectbox *)
  submitted : bool;
  delete_choice : nat;          (* position chosen in the delete selectbox *)
  delete_clicked : bool;        (* st.button("Delete Well") *)
  formation_choice : nat        (* position chosen in the formation selectbox *)
}.

(** [st.selectbox(label, options)]: the option at the chosen position, the
    first one by default; [None] when there are no options. *)
Definition selectbox (options : list string) (choice : nat) : option string :=
  match options !! choice with
  | Some o => Some o
  | None => head options
  end.

(** Lines 53-57: [for i, w in enumerate(wells_data)], replacing the first
    record named [edit_index] and leaving the loop.  The list is only
    assigned to right before [break], so the loop visits the records the
    list held when the loop started. *)
Fixpoint update_existing (items : list (well F)) (i : nat)
    (edit_index : string) (new_entry : well F) : script F unit :=
  match items with
  | [] => mret tt
  | w :: rest =>
      if bool_decide (well_name w = edit_index) then
        ws ← get_wells;
        set_wells (<[i := new_entry]> ws);;
        emit (st_success ("Well '" ++ edit_index ++ "' updated."))
      else update_existing rest (S i) edit_index new_entry
  end.

(** Lines 38-60, the body of the [try]. *)
Definition well_form_try (v : widgets) (edit_index : string) : script F unit :=
  formations ← list_comp (fun _ => true) (fun f => mret (PyStr.strip f))
                  (PyStr.split PyStr.comma (formation_names v)) [];
  depths ← list_comp (fun _ => true) (fun d => py_float (PyStr.strip d))
              (PyStr.split PyStr.comma (formation_depths v)) [];
  if negb (length formations =? length depths)%nat then
    emit (st_error "Formation names and depths count must match!")
  else
    let new_entry := {| well_name := well_name_text v;
                        x := x_loc v;
                        y := y_loc v;
                        formations := formations;
                        depths := depths |} in
    if negb (bool_decide (edit_index = "None")) then
      ws ← get_wells;
      update_existing ws 0 edit_index new_entry
    else
      ws ← get_wells;
      set_wells (ws ++ [new_entry]);;
      emit (st_success ("Well '" ++ well_name_text v ++ "' added.")).

(** Lines 37-62: what the form does once its widgets are read. *)
Definition well_form (v : widgets) (edit_index : string) : script F unit :=
  if submitted v then
    try_except_ValueError
      (well_form_try v edit_index)
      (emit (st_error "Depths must be valid numbers."))
  else mret tt.

(** Lines 68-70, with [delete_well] the name the selectbox holds. *)
Definition delete_button (v : widgets) (delete_well : string) : script F unit :=
  if delete_clicked v then
    ws ← get_wells;
    kept ← list_comp (fun w => negb (bool_decide (well_name w = delete_well)))
              mret ws [];
    set_wells kept;;
    emit (st_success ("Deleted well: " ++ delete_well))
  else mret tt.

(** Lines 26-70: the part of a run that can change the store. *)
Definition store_sections (v : widgets) : script F unit :=
  ws ← get_wells;
  match selectbox ("None" :: map well_name ws) (edit_choice v) with
  | None => mret tt
  | Some edit_index => well_form v edit_index
  end;;
  ws ← get_wells;
  match ws with
  | [] => mret tt
  | _ :: _ =>
      match selectbox (map well_name ws) (delete_choice v) with
      | None => mret tt
      | Some delete_well => delete_button v delete_well
      end
  end.

End WellStore.

Arguments widgets F : clear implicits.

(** ** The interpolated surface (lines 100-156)

    pandas and NumPy are modelled as far as the script's control flow depends
    on them: which columns a frame has, how many rows pass the mask, and the
    nodes of the grid handed to [griddata].  What [griddata] and the plotting
    calls compute from the grid is not modelled. *)

Section Surface.

Context {F : Type} `{PyFloat F} `{FloatArith F}.

(** The dict [formation_colors]; [list(formation_colors.keys())] lists the
    keys in this order. *)
Definition formation_colors : list (string * list nat) :=
  [ ("Top_Shale", [127; 127; 127]);
    ("Sand_A", [255; 215; 0]);
    ("Sand_B", [255; 160; 122]);
    ("Limestone", [176; 196; 222]);
    ("Dolomite", [210; 180; 140]) ].

(** [d.get(key, default)] *)
Fixpoint dict_get {V} (d : list (string * V)) (key : string) (default : V) : V :=
  match d with
  | [] => default
  | (k, val) :: rest => if bool_decide (k = key) then val else dict_get rest key default
  end.

(** One dict of [map_data], keys "well", "formation", "x", "y", "depth",
    "color". *)
Record point : Type := {
  pt_well : string;
  pt_formation : string;
  pt_x : F;
  pt_y : F;
  pt_depth : F;
  pt_color : list nat
}.

(** Lines 102-112: one point per (formation, depth) pair of every well. *)
Definition map_data (ws : list (well F)) : list point :=
  fold_left
    (fun acc w =>
       fold_left
         (fun acc '(form, depth) =>
            acc ++ [ {| pt_well := well_name w;
                        pt_formation := form;
                        pt_x := x w;
                        pt_y := y w;
                        pt_depth := depth;
                        pt_color := dict_get formation_colors form [0; 0; 255] |} ])
         (zip (formations w) (depths w)) acc)
    ws [].

(** A data frame built from a list of dicts: the columns are the keys of
    the dicts, so a frame built from the empty list has no columns. *)
Record DataFrame : Type := {
  columns : list string;
  records : list point
}.

Definition pd_DataFrame (data : list point) : DataFrame :=
  {| columns := match data with
                | [] => []
                | _ :: _ => ["well"; "formation"; "x"; "y"; "depth"; "color"]
                end;
     records := data |}.

(** [df["formation"]]: a column that is missing raises [KeyError]. *)
Definition column_formation (df : DataFrame) : script F (list string) :=
  if bool_decide ("formation" ∈ columns df)
  then mret (map pt_formation (records df))
  else raise (KeyError "formation").

(** [df[mask]] *)
Fixpoint mask_rows (rows : list point) (mask : list bool) : list point :=
  match rows, mask with
  | r :: rows', b :: mask' =>
      if b then r :: mask_rows rows' mask' else mask_rows rows' mask'
  | _, _ => []
  end.

(** [series.min()] and [series.max()] of a non-empty column. *)
Definition series_min (l : list F) (default : F) : F :=
  match l with
  | [] => default
  | a :: rest => fold_left fmin rest a
  end.

Definition series_max (l : list F) (default : F) : F :=
  match l with
  | [] => default
  | a :: rest => fold_left fmax rest a
  end.

(** [np.linspace(start, stop, num)] with the end point included. *)
Definition linspace (start stop : F) (num : nat) : list F :=
  let div := (num - 1)%nat in
  let delta := fsub stop start in
  let steps := map of_nat (seq 0 num) in
  let scaled :=
    if (0 <? div)%nat then
      let step := fdiv delta (of_nat div) in
      if fis_zero step
      then map (fun v => fmul (fdiv v (of_nat div)) delta) steps
      else map (fun v => fmul v step) steps
    else map (fun v => fmul v delta) steps in
  let shifted := map (fun v => fadd v start) scaled in
  if (1 <? num)%nat then <[(num - 1)%nat := stop]> shifted else shifted.

(** [np.meshgrid(xs, ys)]: both arrays have one row per element of [ys]
    and one column per element of [xs]. *)
Definition meshgrid (xs ys : list F) : list (list F) * list (list F) :=
  (map (fun _ => xs) ys, map (fun yv => map (fun _ => yv) xs) ys).

(** Lines 134-156 up to the call of [griddata]: the result is the grid when
    one is built. *)
Definition surface_section (v : widgets F)
  : script F (option (list (list F) * list (list F))) :=
  ws ← get_wells;
  let df_map := pd_DataFrame (map_data ws) in
  match selectbox (map fst formation_colors) (formation_choice v) with
  | None => mret None
  | Some formation_to_plot =>
      col ← column_formation df_map;
      let interp_data :=
        {| columns := columns df_map;
           records := mask_rows (records df_map)
                        (map (fun f => bool_decide (f = formation_to_plot)) col) |} in
      if (3 <=? length (records interp_data))%nat then
        let xs := map pt_x (records interp_data) in
        let ys := map pt_y (records interp_data) in
        mret (Some (meshgrid
                      (linspace (series_min xs (of_nat 0)) (series_max xs (of_nat 0)) 100)
                      (linspace (series_min ys (of_nat 0)) (series_max ys (of_nat 0)) 100)))
      else
        emit (st_warning "Need at least 3 points for interpolation.");;
        mret None
  end.

(** One run of the script. *)
Definition script_run (v : widgets F)
  : script F (option (list (list F) * list (list F))) :=
  store_sections v;;
  surface_section v.

End Surface.

(** ** Reachable stores

    A session starts with [wells_data = []], and every run of the script
    starts with an empty page. *)

Section Reachable.

Context {F : Type} `{PyFloat F}.

Definition fresh_run (ws : list (well F)) : run F :=
  {| wells_data := ws; page := [] |}.

Inductive reachable : list (well F) -> Prop :=
| reach_start : reachable []
| reach_run ws v :
    reachable ws ->
    reachable (wells_data (store_sections v (fresh_run ws)).2).

(** The names of the stored records, as the selectboxes list them. *)
Definition names (ws : list (well F)) : list string := map well_name ws.

(** The record a valid submission stores. *)
Definition new_entry (v : widgets F) (ds : list F) : well F :=
  {| well_name := well_name_text v;
     x := x_loc v;
     y := y_loc v;
     formations := map PyStr.strip (PyStr.split PyStr.comma (formation_names v));
     depths := ds |}.

(** The depths text as the comprehension of line 40 reads it, without the
    effects: [None] when some token is not a float. *)
Definition parse_depths (v : widgets F) : option (list F) :=
  mapM (fun d => float (PyStr.strip d))
       (PyStr.split PyStr.comma (formation_depths v)).

(** The invariant of the data model. *)
Definition record_ok (w : well F) : Prop :=
  length (formations w) = length (depths w).

End Reachable.

(** The conditions under which the form stores a record: the form was
    submitted, every depth token is a float, and the two texts have the same
    number of comma-separated fields. *)
Definition valid_submission {F} `{PyFloat F} (v : widgets F) : Prop :=
  submitted v = true
  /\ Forall (fun tok => is_Some (float (PyStr.strip tok)))
       (PyStr.split PyStr.comma (formation_depths v))
  /\ length (PyStr.split PyStr.comma (formation_names v))
     = length (PyStr.split PyStr.comma (formation_depths v)).

(** Concrete widget values, with depths read as decimal literals. *)
Module Sample.

Import FloatLit.

Definition zero : pyfloat := Finite false 0 0.

(** The form filled in and "Save Well" pressed. *)
Definition save (name fnames fdepths : string) (edit : nat) : widgets pyfloat :=
  {| well_name_text := name;
     x_loc := zero;
     y_loc := zero;
     formation_names := fnames;
     formation_depths := fdepths;
     edit_choice := edit;
     submitted := true;
     delete_choice := 0;
     delete_clicked := false;
     formation_choice := 0 |}.

(** "Delete Well" pressed with the form left at its defaults. *)
Definition delete (choice : nat) : widgets pyfloat :=
  {| well_name_text := "";
     x_loc := zero;
     y_loc := zero;
     formation_names := "Top_Shale, Sand_A, Sand_B";
     formation_depths := "500, 750, 980";
     edit_choice := 0;
     submitted := false;
     delete_choice := choice;
     delete_clicked := true;
     formation_choice := 0 |}.

Definition a_well (name : string) : well pyfloat :=
  {| well_name := name;
     x := zero;
     y := zero;
     formations := ["Top_Shale"];
     depths := [Finite false 500 0] |}.

End Sample.

(** ** More of the script

    The rest of the definitions serve the properties stated at the end of
    the file: what Python's string functions do to the form's texts, the
    table of wells (lines 73-80) and the points of one well. *)

Module PyText.

(** [sep.join(fields)] *)
Fixpoint join (sep : ascii) (fields : list string) : string :=
  match fields with
  | [] => EmptyString
  | f :: rest =>
      match rest with
      | [] => f
      | _ :: _ => f ++ String sep (join sep rest)
      end
  end.

(** [s.count(c)] *)
Fixpoint count_char (c : ascii) (s : string) : nat :=
  match s with
  | EmptyString => 0
  | String c' r => (if Ascii.eqb c' c then 1 else 0) + count_char c r
  end.

(** [c in s] *)
Fixpoint contains (c : ascii) (s : string) : bool :=
  match s with
  | EmptyString => false
  | String c' r => Ascii.eqb c' c || contains c r
  end.

(** Every character of [s] is white space ([s] may be empty). *)
Fixpoint all_space (s : string) : bool :=
  match s with
  | EmptyString => true
  | String c r => PyStr.is_space c && all_space r
  end.

Definition starts_with_space (s : string) : bool :=
  match s with
  | EmptyString => false
  | String c _ => PyStr.is_space c
  end.

Fixpoint ends_with_space (s : string) : bool :=
  match s with
  | EmptyString => false
  | String c EmptyString => PyStr.is_space c
  | String _ r => ends_with_space r
  end.

End PyText.

Section Tables.

Context {F : Type}.

(** What lines 75-80 put on the page for one well: the subheader with the
    name and the location, and the rows of the data frame. *)
Record table : Type := {
  tb_name : string;
  tb_x : F;
  tb_y : F;
  tb_rows : list (string * F)
}.

(** [pd.DataFrame({"Formation": fs, "Top Depth (m)": ds})]: pandas raises
    [ValueError] when the two columns differ in length. *)
Definition pd_DataFrame_columns (fs : list string) (ds : list F)
  : exn + list (string * F) :=
  if (length fs =? length ds)%nat then inr (zip fs ds) else inl ValueError.

(** Lines 74-80: the tables shown, in order, and the exception that ended
    the loop if one was raised. *)
Fixpoint show_wells (ws : list (well F)) : list table * option exn :=
  match ws with
  | [] => ([], None)
  | w :: rest =>
      match pd_DataFrame_columns (formations w) (depths w) with
      | inl e => ([], Some e)
      | inr rows =>
          let '(shown, raised) := show_wells rest in
          ({| tb_name := well_name w; tb_x := x w; tb_y := y w;
              tb_rows := rows |} :: shown, raised)
      end
  end.

(** The points lines 104-112 append for one well. *)
Definition well_points (w : well F) : list (point (F:=F)) :=
  map (fun fd : string * F =>
         {| pt_well := well_name w;
            pt_formation := fd.1;
            pt_x := x w;
            pt_y := y w;
            pt_depth := fd.2;
            pt_color := dict_get formation_colors fd.1 [0; 0; 255] |})
      (zip (formations w) (depths w)).

(** A record as the form builds it: at least one formation, every formation
    name trimmed and free of commas. *)
Definition record_clean (w : well F) : Prop :=
  formations w ≠ []
  /\ Forall (fun f => PyStr.strip f = f
                      /\ PyText.contains PyStr.comma f = false)
       (formations w).

End Tables.

Arguments table F : clear implicits.

(** ** Running the script monad *)

Ltac run_script :=
  unfold mbind, script_bind, bind, mret, script_ret, ret, raise,
    get_wells, set_wells, emit; simpl.

Ltac all_floats :=
  vm_compute; repeat first [ by eexists | constructor ].

Section StoreFacts.

Context {F : Type} `{PyFloat F}.

Implicit Types (s : run F) (ws : list (well F)) (v : widgets F).

Lemma list_comp_strip (toks acc : list string) s :
  list_comp (fun _ => true) (fun f => mret (PyStr.strip f)) toks acc s
  = (inr (acc ++ map PyStr.strip toks), s).
Proof.
  revert acc. induction toks as [|t toks IH]; intros acc; simpl.
  - by rewrite app_nil_r.
  - run_script. etrans; [apply IH|]. by rewrite <- app_assoc.
Qed.

Lemma list_comp_float (toks : list string) (acc : list F) s :
  list_comp (fun _ => true) (fun d => py_float (PyStr.strip d)) toks acc s
  = match mapM (fun d => float (PyStr.strip d)) toks with
    | Some ds => (inr (acc ++ ds), s)
    | None => (inl ValueError, s)
    end.
Proof.
  revert acc. induction toks as [|t toks IH]; intros acc; simpl.
  - by rewrite app_nil_r.
  - unfold py_float. destruct (float (PyStr.strip t)) as [d|]; run_script.
    + rewrite IH. destruct (mapM _ toks); simpl; [|done].
      by rewrite <- app_assoc.
    + done.
Qed.

Lemma list_comp_keep ws (acc : list (well F)) (delete_well : string) s :
  list_comp (fun w => negb (bool_decide (well_name w = delete_well)))
    mret ws acc s
  = (inr (acc ++ filter (fun w => well_name w ≠ delete_well) ws), s).
Proof.
  revert acc. induction ws as [|w ws IH]; intros acc; simpl.
  - by rewrite app_nil_r.
  - rewrite filter_cons. case_bool_decide; simpl.
    + rewrite decide_False by naive_solver. apply IH.
    + rewrite decide_True by done. run_script.
      rewrite IH. by rewrite <- app_assoc.
Qed.

(** The loop of lines 53-57 when no visited record carries the name. *)
Lemma update_existing_miss (items : list (well F)) i edit_index n s :
  Forall (fun w => well_name w ≠ edit_index) items ->
  update_existing items i edit_index n s = (inr tt, s).
Proof.
  intros Hmiss. revert i.
  induction Hmiss as [|w items Hw _ IH]; intros i; simpl; [done|].
  rewrite bool_decide_eq_false_2 by done. apply IH.
Qed.

(** The loop when the first record carrying the name is [length mid]
    places after the start. *)
Lemma update_existing_hit (mid post : list (well F)) w i edit_index n s :
  Forall (fun w => well_name w ≠ edit_index) mid ->
  well_name w = edit_index ->
  update_existing (mid ++ w :: post) i edit_index n s
  = (inr tt,
     {| wells_data := <[(i + length mid)%nat := n]> (wells_data s);
        page := page s ++ [st_success ("Well '" ++ edit_index ++ "' updated.")] |}).
Proof.
  intros Hmid Hw. revert i.
  induction Hmid as [|w' mid Hw' _ IH]; intros i; simpl.
  - rewrite bool_decide_eq_true_2 by done. run_script.
    by rewrite Nat.add_0_r.
  - rewrite bool_decide_eq_false_2 by done. rewrite IH.
    by rewrite Nat.add_succ_r.
Qed.

(** A list holding a record of a given name splits at the first one. *)
Lemma first_named_split ws (name : string) :
  name ∈ names ws ->
  exists mid w post,
    ws = mid ++ w :: post
    /\ Forall (fun w' => well_name w' ≠ name) mid
    /\ well_name w = name.
Proof.
  induction ws as [|w0 ws IH]; simpl; intros Hin.
  - by apply elem_of_nil in Hin.
  - destruct (decide (well_name w0 = name)) as [Heq|Hne].
    + exists [], w0, ws. by repeat split.
    + apply elem_of_cons in Hin as [Heq|Hin]; [congruence|].
      destruct (IH Hin) as (mid & w & post & -> & Hmid & Hw).
      exists (w0 :: mid), w, post. repeat split; [|done].
      by constructor.
Qed.

(** What the body of the [try] does, case by case. *)
Lemma well_form_try_unfold v edit_index s :
  well_form_try v edit_index s
  = match parse_depths v with
    | None => (inl ValueError, s)
    | Some ds =>
        if decide (length (PyStr.split PyStr.comma (formation_names v))
                   = length ds)
        then
          if decide (edit_index = "None")
          then (inr tt,
                {| wells_data := wells_data s ++ [new_entry v ds];
                   page := page s ++
                     [st_success ("Well '" ++ well_name_text v ++ "' added.")] |})
          else update_existing (wells_data s) 0 edit_index (new_entry v ds) s
        else (inr tt,
              {| wells_data := wells_data s;
                 page := page s ++
                   [st_error "Formation names and depths count must match!"] |})
    end.
Proof.
  unfold well_form_try, parse_depths.
  unfold mbind at 1, script_bind at 1, bind at 1.
  rewrite list_comp_strip.
  unfold mbind at 1, script_bind at 1, bind at 1.
  rewrite list_comp_float.
  destruct (mapM _ _) as [ds|]; [|done]. simpl.
  rewrite length_map.
  destruct (decide (length _ = length ds)) as [Hlen|Hlen].
  - apply Nat.eqb_eq in Hlen as ->. simpl.
    destruct (decide (edit_index = "None")) as [->|Hne].
    + by rewrite bool_decide_eq_true_2.
    + by rewrite bool_decide_eq_false_2.
  - apply Nat.eqb_neq in Hlen as ->. done.
Qed.

Lemma parse_depths_length v ds :
  parse_depths v = Some ds ->
  length ds = length (PyStr.split PyStr.comma (formation_depths v)).
Proof.
  intros Hp. apply mapM_Some_1 in Hp. symmetry. by eapply Forall2_length.
Qed.

Lemma parse_depths_numeric v :
  Forall (fun tok => is_Some (float (PyStr.strip tok)))
    (PyStr.split PyStr.comma (formation_depths v)) ->
  exists ds, parse_depths v = Some ds.
Proof.
  intros Hall. apply (mapM_is_Some_2 (fun d => float (PyStr.strip d))).
  by apply Hall.
Qed.

Lemma parse_depths_bad_token v tok :
  tok ∈ PyStr.split PyStr.comma (formation_depths v) ->
  float (PyStr.strip tok) = None ->
  parse_depths v = None.
Proof.
  intros Hin Hbad. apply mapM_None_2, Exists_exists. eauto.
Qed.

End StoreFacts.

(** ** Rejected submissions *)

Section Rejection.

Context {F : Type} `{PyFloat F}.

Implicit Types (s : run F) (v : widgets F).

(** C1: a submitted form whose depth tokens are all floats but whose two
    texts have different numbers of fields shows the count error and leaves
    [wells_data] as it was. *)
Theorem unequal_counts_rejected v edit_index s :
  submitted v = true ->
  Forall (fun tok => is_Some (float (PyStr.strip tok)))
    (PyStr.split PyStr.comma (formation_depths v)) ->
  length (PyStr.split PyStr.comma (formation_names v))
    ≠ length (PyStr.split PyStr.comma (formation_depths v)) ->
  well_form v edit_index s
  = (inr tt,
     {| wells_data := wells_data s;
        page := page s ++
          [st_error "Formation names and depths count must match!"] |}).
Proof.
  intros Hsub Hnum Hlen. unfold well_form, try_except_ValueError.
  rewrite Hsub, well_form_try_unfold.
  destruct (parse_depths_numeric v Hnum) as [ds Hds]. rewrite Hds.
  rewrite (parse_depths_length v ds Hds). by rewrite decide_False.
Qed.

(** C2: a submitted form with a depth token that is not a float takes the
    [ValueError] branch: the page shows "Depths must be valid numbers." and
    no record is appended or replaced. *)
Theorem non_numeric_depth_rejected v edit_index s tok :
  submitted v = true ->
  tok ∈ PyStr.split PyStr.comma (formation_depths v) ->
  float (PyStr.strip tok) = None ->
  well_form v edit_index s
  = (inr tt,
     {| wells_data := wells_data s;
        page := page s ++ [st_error "Depths must be valid numbers."] |}).
Proof.
  intros Hsub Hin Hbad. unfold well_form, try_except_ValueError.
  rewrite Hsub, well_form_try_unfold.
  by rewrite (parse_depths_bad_token v tok Hin Hbad).
Qed.

(** C10: with a depth token that is not a float, the body of the [try]
    raises [ValueError] in the very state it started from, so nothing was
    appended or replaced before the raise, and the form as a whole leaves
    [wells_data] unchanged. *)
Theorem value_error_is_atomic v edit_index s tok :
  tok ∈ PyStr.split PyStr.comma (formation_depths v) ->
  float (PyStr.strip tok) = None ->
  well_form_try v edit_index s = (inl ValueError, s)
  /\ wells_data (well_form v edit_index s).2 = wells_data s.
Proof.
  intros Hin Hbad.
  assert (well_form_try v edit_index s = (inl ValueError, s)) as Htry.
  { rewrite well_form_try_unfold.
    by rewrite (parse_depths_bad_token v tok Hin Hbad). }
  split; [done|].
  unfold well_form. destruct (submitted v); [|done].
  unfold try_except_ValueError. by rewrite Htry.
Qed.

End Rejection.

Lemma unequal_counts_rejected_witness :
  well_form (Sample.save "W1" "Top_Shale, Sand_A" "500" 0) "None"
    (fresh_run [Sample.a_well "W0"])
  = (inr tt,
     {| wells_data := [Sample.a_well "W0"];
        page := [st_error "Formation names and depths count must match!"] |}).
Proof.
  apply (unequal_counts_rejected (Sample.save "W1" "Top_Shale, Sand_A" "500" 0)
           "None" (fresh_run [Sample.a_well "W0"])).
  - reflexivity.
  - vm_compute. repeat constructor. eexists. reflexivity.
  - vm_compute. lia.
Defined.

Lemma non_numeric_depth_rejected_witness :
  well_form (Sample.save "W1" "Top_Shale, Sand_A" "500, deep" 0) "None"
    (fresh_run [Sample.a_well "W0"])
  = (inr tt,
     {| wells_data := [Sample.a_well "W0"];
        page := [st_error "Depths must be valid numbers."] |}).
Proof.
  apply (non_numeric_depth_rejected
           (Sample.save "W1" "Top_Shale, Sand_A" "500, deep" 0)
           "None" (fresh_run [Sample.a_well "W0"]) " deep").
  - reflexivity.
  - vm_compute. do 2 constructor.
  - reflexivity.
Defined.

Lemma value_error_is_atomic_witness :
  well_form_try (Sample.save "W0" "Top_Shale" "5O0" 1) "W0"
    (fresh_run [Sample.a_well "W0"])
  = (inl ValueError, fresh_run [Sample.a_well "W0"])
  /\ wells_data
       (well_form (Sample.save "W0" "Top_Shale" "5O0" 1) "W0"
          (fresh_run [Sample.a_well "W0"])).2
     = [Sample.a_well "W0"].
Proof.
  apply (value_error_is_atomic (Sample.save "W0" "Top_Shale" "5O0" 1)
           "W0" (fresh_run [Sample.a_well "W0"]) "5O0").
  - vm_compute. constructor.
  - reflexivity.
Defined.

(** ** Adding, editing and deleting *)

Section Mutation.

Context {F : Type} `{PyFloat F}.

Implicit Types (s : run F) (ws : list (well F)) (v : widgets F).

Lemma valid_submission_parses v :
  valid_submission v ->
  exists ds,
    parse_depths v = Some ds
    /\ length (PyStr.split PyStr.comma (formation_names v)) = length ds.
Proof.
  intros (_ & Hnum & Hlen).
  destruct (parse_depths_numeric v Hnum) as [ds Hds].
  exists ds. split; [done|]. by rewrite (parse_depths_length v ds Hds).
Qed.

(** A valid submission either appends or runs the replacement loop. *)
Lemma well_form_valid v edit_index s ds :
  submitted v = true ->
  parse_depths v = Some ds ->
  length (PyStr.split PyStr.comma (formation_names v)) = length ds ->
  well_form v edit_index s
  = if decide (edit_index = "None")
    then (inr tt,
          {| wells_data := wells_data s ++ [new_entry v ds];
             page := page s ++
               [st_success ("Well '" ++ well_name_text v ++ "' added.")] |})
    else update_existing (wells_data s) 0 edit_index (new_entry v ds) s.
Proof.
  intros Hsub Hds Hlen. unfold well_form, try_except_ValueError.
  rewrite Hsub, well_form_try_unfold, Hds, decide_True by done.
  destruct (decide (edit_index = "None")); [done|].
  destruct (update_existing _ _ _ _ _) as [[e|[]] s'] eqn:Hloop; [|done].
  exfalso. clear Hsub Hds Hlen.
  destruct (decide (edit_index ∈ names (wells_data s))) as [Hin|Hout].
  - destruct (first_named_split _ _ Hin) as (mid & w & post & Hws & Hmid & Hw).
    rewrite Hws in Hloop at 1.
    by rewrite (update_existing_hit mid post w 0 edit_index _ s Hmid Hw) in Hloop.
  - rewrite update_existing_miss in Hloop; [done|].
    apply Forall_forall. intros w Hw Heq. apply Hout. subst edit_index.
    by apply list_elem_of_fmap_2.
Qed.

(** A valid submission whose target is the name of a stored record. *)
Lemma well_form_edit v edit_index s ds mid w post :
  submitted v = true ->
  parse_depths v = Some ds ->
  length (PyStr.split PyStr.comma (formation_names v)) = length ds ->
  edit_index ≠ "None" ->
  wells_data s = mid ++ w :: post ->
  Forall (fun w' => well_name w' ≠ edit_index) mid ->
  well_name w = edit_index ->
  well_form v edit_index s
  = (inr tt,
     {| wells_data := mid ++ new_entry v ds :: post;
        page := page s ++
          [st_success ("Well '" ++ edit_index ++ "' updated.")] |}).
Proof.
  intros Hsub Hds Hlen Hedit Hws Hmid Hw.
  rewrite (well_form_valid v edit_index s ds Hsub Hds Hlen).
  rewrite decide_False by done.
  rewrite Hws at 1.
  rewrite (update_existing_hit mid post w 0 edit_index _ s Hmid Hw). simpl.
  rewrite Hws.
  rewrite (insert_app_r_alt mid (w :: post) (length mid)) by lia.
  by rewrite Nat.sub_diag.
Qed.

Lemma delete_button_clicked v delete_well s :
  delete_clicked v = true ->
  delete_button v delete_well s
  = (inr tt,
     {| wells_data := filter (fun w => well_name w ≠ delete_well) (wells_data s);
        page := page s ++ [st_success ("Deleted well: " ++ delete_well)] |}).
Proof.
  intros Hclick. unfold delete_button. rewrite Hclick.
  unfold mbind at 1, script_bind at 1, bind at 1, get_wells.
  unfold mbind at 1, script_bind at 1, bind at 1.
  by rewrite list_comp_keep.
Qed.

(** C3: after a valid submission without edit target stores a well, the
    delete action with that well's name selected leaves no record of that
    name in [wells_data]. *)
Theorem add_then_delete_removes v v' s :
  valid_submission v ->
  delete_clicked v' = true ->
  let added := (well_form v "None" s).2 in
  let deleted := (delete_button v' (well_name_text v) added).2 in
  well_name_text v ∈ names (wells_data added)
  /\ well_name_text v ∉ names (wells_data deleted).
Proof.
  intros Hvalid Hclick added deleted.
  destruct (valid_submission_parses v Hvalid) as (ds & Hds & Hlen).
  destruct Hvalid as (Hsub & _).
  subst deleted added.
  rewrite (well_form_valid v "None" s ds Hsub Hds Hlen), decide_True by done.
  rewrite (delete_button_clicked v' _ _ Hclick). simpl. split.
  - unfold names. rewrite fmap_app. apply elem_of_app. right.
    simpl. constructor.
  - unfold names. intros Hin.
    apply list_elem_of_fmap in Hin as (w & Hname & Hw).
    apply list_elem_of_filter in Hw as [Hne _]. by apply Hne.
Qed.

(** C8: the delete action keeps exactly the records whose name differs from
    the selected one, all of them and in their order, so every record of
    that name goes. *)
Theorem delete_is_filter v delete_well s :
  delete_clicked v = true ->
  let kept := wells_data (delete_button v delete_well s).2 in
  kept = filter (fun w => well_name w ≠ delete_well) (wells_data s)
  /\ (kept `sublist_of` wells_data s)
  /\ (delete_well ∉ names kept)
  /\ (forall w, w ∈ wells_data s -> well_name w ≠ delete_well -> w ∈ kept).
Proof.
  intros Hclick kept. subst kept.
  rewrite (delete_button_clicked v _ _ Hclick). simpl.
  split; [done|]. split; [apply sublist_filter|]. split.
  - unfold names. intros Hin.
    apply list_elem_of_fmap in Hin as (w & Hname & Hw).
    apply list_elem_of_filter in Hw as [Hne _]. by apply Hne.
  - intros w Hw Hne. by apply list_elem_of_filter.
Qed.

(** C9: a valid edit submission replaces only the first record named as the
    edit target; the records before and after it stay, and the stored
    record carries the name typed in the form, whatever the target was. *)
Theorem edit_replaces_first_match v edit_index s ds mid w post :
  submitted v = true ->
  parse_depths v = Some ds ->
  length (PyStr.split PyStr.comma (formation_names v)) = length ds ->
  edit_index ≠ "None" ->
  wells_data s = mid ++ w :: post ->
  Forall (fun w' => well_name w' ≠ edit_index) mid ->
  well_name w = edit_index ->
  wells_data (well_form v edit_index s).2 = mid ++ new_entry v ds :: post
  /\ well_name (new_entry v ds) = well_name_text v.
Proof.
  intros Hsub Hds Hlen Hedit Hws Hmid Hw.
  by rewrite (well_form_edit v edit_index s ds mid w post).
Qed.

(** With a target other than the literal "None", editing a stored name
    replaces in place: the length stays and the first record of that name
    becomes the new entry. *)
Lemma edit_in_place v edit_index s :
  valid_submission v ->
  edit_index ≠ "None" ->
  edit_index ∈ names (wells_data s) ->
  length (wells_data (well_form v edit_index s).2) = length (wells_data s)
  /\ exists i ds,
       parse_depths v = Some ds
       /\ (forall j w, (j < i)%nat -> wells_data s !! j = Some w ->
                       well_name w ≠ edit_index)
       /\ (well_name <$> wells_data s !! i) = Some edit_index
       /\ wells_data (well_form v edit_index s).2
          = <[i := new_entry v ds]> (wells_data s).
Proof.
  intros Hvalid Hedit Hin.
  destruct (valid_submission_parses v Hvalid) as (ds & Hds & Hlen).
  destruct Hvalid as (Hsub & _).
  destruct (first_named_split _ _ Hin) as (mid & w & post & Hws & Hmid & Hw).
  rewrite (well_form_edit v edit_index s ds mid w post) by done. simpl.
  rewrite Hws. split; [by rewrite !length_app|].
  exists (length mid), ds. split; [done|]. split; [|split].
  - intros j w' Hj Hlook. rewrite lookup_app_l in Hlook by done.
    eapply Forall_forall in Hmid; [done|]. by eapply list_elem_of_lookup_2.
  - rewrite list_lookup_middle by done. simpl. by rewrite Hw.
  - rewrite (insert_app_r_alt mid (w :: post) (length mid)) by lia.
    by rewrite Nat.sub_diag.
Qed.

End Mutation.

Lemma add_then_delete_removes_witness :
  "W1" ∈ names
    (wells_data
       (well_form (Sample.save "W1" "Top_Shale, Sand_A" "500, 750" 0) "None"
          (fresh_run [Sample.a_well "W0"])).2)
  /\ "W1" ∉ names
       (wells_data
          (delete_button (Sample.delete 1) "W1"
             (well_form (Sample.save "W1" "Top_Shale, Sand_A" "500, 750" 0) "None"
                (fresh_run [Sample.a_well "W0"])).2).2).
Proof.
  apply (add_then_delete_removes
           (Sample.save "W1" "Top_Shale, Sand_A" "500, 750" 0) (Sample.delete 1)
           (fresh_run [Sample.a_well "W0"])).
  - split; [reflexivity|]. split; [all_floats | reflexivity].
  - reflexivity.
Defined.

Lemma delete_is_filter_witness :
  let stored := [Sample.a_well "W0"; Sample.a_well "W1"; Sample.a_well "W0"] in
  let kept :=
    wells_data (delete_button (Sample.delete 0) "W0" (fresh_run stored)).2 in
  kept = filter (fun w => well_name w ≠ "W0") stored
  /\ (kept `sublist_of` stored)
  /\ ("W0" ∉ names kept)
  /\ (forall w, w ∈ stored -> well_name w ≠ "W0" -> w ∈ kept).
Proof.
  apply (delete_is_filter (Sample.delete 0) "W0"
           (fresh_run
              [Sample.a_well "W0"; Sample.a_well "W1"; Sample.a_well "W0"])).
  reflexivity.
Defined.

(** The edit below also renames the well: the target is "W0", the stored
    record is called "W9", and the second "W0" stays. *)
Lemma edit_replaces_first_match_witness :
  wells_data
    (well_form (Sample.save "W9" "Top_Shale" "510" 1) "W0"
       (fresh_run [Sample.a_well "W0"; Sample.a_well "W0"])).2
  = [new_entry (Sample.save "W9" "Top_Shale" "510" 1) [FloatLit.Finite false 510 0];
     Sample.a_well "W0"]
  /\ well_name
       (new_entry (Sample.save "W9" "Top_Shale" "510" 1) [FloatLit.Finite false 510 0])
     = "W9".
Proof.
  apply (edit_replaces_first_match (Sample.save "W9" "Top_Shale" "510" 1) "W0"
           (fresh_run [Sample.a_well "W0"; Sample.a_well "W0"])
           [FloatLit.Finite false 510 0] [] (Sample.a_well "W0") [Sample.a_well "W0"]).
  - reflexivity.
  - reflexivity.
  - reflexivity.
  - discriminate.
  - reflexivity.
  - constructor.
  - reflexivity.
Defined.

(** C4: a stored well whose name is the literal "None" cannot be edited.
    Choosing it in the edit selectbox yields the string "None", which line 51
    takes for "no target": the valid submission is appended as a second
    record and the list grows from one record to two. *)
Theorem edit_of_well_named_None_appends :
  let stored := Sample.a_well "None" in
  let v := Sample.save "None" "Top_Shale" "510" 1 in
  selectbox ("None" :: names [stored]) (edit_choice v) = Some (well_name stored)
  /\ valid_submission v
  /\ reachable [stored]
  /\ wells_data (store_sections v (fresh_run [stored])).2
     = [stored; new_entry v [FloatLit.Finite false 510 0]]
  /\ length (wells_data (store_sections v (fresh_run [stored])).2) = 2%nat.
Proof.
  intros stored v. split; [reflexivity|]. split.
  - split; [reflexivity|]. split; [all_floats | reflexivity].
  - split; [|split; reflexivity].
    exact (reach_run [] (Sample.save "None" "Top_Shale" "500" 0) reach_start).
Qed.

(** ** Invariants of the store *)

Section Invariants.

Context {F : Type} `{PyFloat F}.

Implicit Types (s : run F) (ws : list (well F)) (v : widgets F).

(** What the form can do to the list: nothing, an append, or the
    replacement of the first record named as the target. *)
Lemma well_form_cases v edit_index s :
  exists s', well_form v edit_index s = (inr tt, s')
    /\ (wells_data s' = wells_data s
        \/ exists ds,
             parse_depths v = Some ds
             /\ length (PyStr.split PyStr.comma (formation_names v)) = length ds
             /\ ((edit_index = "None"
                  /\ wells_data s' = wells_data s ++ [new_entry v ds])
                 \/ (edit_index ≠ "None"
                     /\ exists mid w post,
                          wells_data s = mid ++ w :: post
                          /\ Forall (fun w' => well_name w' ≠ edit_index) mid
                          /\ well_name w = edit_index
                          /\ wells_data s' = mid ++ new_entry v ds :: post))).
Proof.
  destruct (submitted v) eqn:Hsub.
  2:{ exists s. unfold well_form. rewrite Hsub. by split; [|left]. }
  destruct (parse_depths v) as [ds|] eqn:Hds.
  2:{ eexists. unfold well_form, try_except_ValueError.
      rewrite Hsub, well_form_try_unfold, Hds. by split; [|left]. }
  destruct (decide (length (PyStr.split PyStr.comma (formation_names v))
                    = length ds)) as [Hlen|Hlen].
  2:{ eexists. unfold well_form, try_except_ValueError.
      rewrite Hsub, well_form_try_unfold, Hds, decide_False by done.
      by split; [|left]. }
  destruct (decide (edit_index = "None")) as [Hnone|Hedit].
  { rewrite (well_form_valid v edit_index s ds Hsub Hds Hlen).
    rewrite decide_True by done.
    eexists. split; [done|]. right. exists ds. do 2 (split; [done|]).
    by left. }
  destruct (decide (edit_index ∈ names (wells_data s))) as [Hin|Hout].
  - destruct (first_named_split _ _ Hin) as (mid & w & post & Hws & Hmid & Hw).
    rewrite (well_form_edit v edit_index s ds mid w post) by done.
    eexists. split; [done|]. right. exists ds. do 2 (split; [done|]).
    right. split; [done|]. by exists mid, w, post.
  - rewrite (well_form_valid v edit_index s ds Hsub Hds Hlen).
    rewrite decide_False by done. rewrite update_existing_miss.
    + exists s. by split; [|left].
    + apply Forall_forall. intros w Hw Heq. apply Hout. subst edit_index.
      by apply list_elem_of_fmap_2.
Qed.

Lemma delete_button_cases v delete_well s :
  exists s', delete_button v delete_well s = (inr tt, s')
    /\ (wells_data s' = wells_data s
        \/ wells_data s'
           = filter (fun w => well_name w ≠ delete_well) (wells_data s)).
Proof.
  destruct (delete_clicked v) eqn:Hclick.
  - rewrite (delete_button_clicked v _ _ Hclick). eexists. by split; [|right].
  - exists s. unfold delete_button. rewrite Hclick. by split; [|left].
Qed.

(** The store after lines 26-70 is the store after the form, then after
    the button when there is something to delete. *)
Lemma store_sections_cases v s :
  exists edit_index s1,
    well_form v edit_index s = (inr tt, s1)
    /\ (store_sections v s = (inr tt, s1)
        \/ exists delete_well,
             store_sections v s = delete_button v delete_well s1).
Proof.
  unfold store_sections, mbind, script_bind, bind, get_wells. simpl.
  destruct (selectbox _ (edit_choice v)) as [edit_index|] eqn:Hsel.
  2:{ unfold selectbox in Hsel. simpl in Hsel.
      by destruct (_ !! edit_choice v). }
  destruct (well_form_cases v edit_index s) as (s1 & Hrun & _).
  exists edit_index, s1. split; [done|]. rewrite Hrun.
  destruct (wells_data s1) as [|w1 ws1]; [by left|].
  destruct (selectbox _ (delete_choice v)) as [delete_well|]; [|by left].
  right. by exists delete_well.
Qed.

Lemma new_entry_ok v ds :
  length (PyStr.split PyStr.comma (formation_names v)) = length ds ->
  record_ok (new_entry v ds).
Proof. intros Hlen. unfold record_ok. simpl. by rewrite length_map. Qed.

Lemma well_form_ok v edit_index s :
  Forall record_ok (wells_data s) ->
  Forall record_ok (wells_data (well_form v edit_index s).2).
Proof.
  intros Hok.
  destruct (well_form_cases v edit_index s) as (s' & -> & Hcases). simpl.
  destruct Hcases as [->|(ds & _ & Hlen & Hcases)]; [done|].
  pose proof (new_entry_ok v ds Hlen) as Hnew.
  destruct Hcases as [[_ ->]|(_ & mid & w & post & Hws & _ & _ & ->)].
  - apply Forall_app. split; [done|]. by constructor.
  - rewrite Hws in Hok. apply Forall_app in Hok as [Hmid Hpost].
    apply Forall_cons in Hpost as [_ Hpost].
    apply Forall_app. split; [done|]. by constructor.
Qed.

Lemma delete_button_ok v delete_well s :
  Forall record_ok (wells_data s) ->
  Forall record_ok (wells_data (delete_button v delete_well s).2).
Proof.
  intros Hok.
  destruct (delete_button_cases v delete_well s) as (s' & -> & Hcases).
  simpl. destruct Hcases as [->| ->]; [done|].
  apply Forall_forall. intros w Hw.
  apply list_elem_of_filter in Hw as [_ Hw].
  by eapply Forall_forall in Hok.
Qed.

Lemma store_sections_ok v s :
  Forall record_ok (wells_data s) ->
  Forall record_ok (wells_data (store_sections v s).2).
Proof.
  intros Hok.
  destruct (store_sections_cases v s)
    as (edit_index & s1 & Hform & [-> | (delete_well & ->)]).
  - pose proof (well_form_ok v edit_index s Hok) as Hok1.
    by rewrite Hform in Hok1.
  - apply delete_button_ok.
    pose proof (well_form_ok v edit_index s Hok) as Hok1.
    by rewrite Hform in Hok1.
Qed.

Lemma reachable_ok ws : reachable ws -> Forall record_ok ws.
Proof.
  induction 1 as [|ws v _ IH]; [constructor|].
  by apply store_sections_ok.
Qed.

(** C6: every record of every reachable store has as many formations as
    depths, and adding, editing and deleting keep it so. *)
Theorem equal_lengths_invariant ws :
  reachable ws ->
  Forall record_ok ws
  /\ (forall v edit_index,
        Forall record_ok
          (wells_data (well_form v edit_index (fresh_run ws)).2))
  /\ (forall v delete_well,
        Forall record_ok
          (wells_data (delete_button v delete_well (fresh_run ws)).2)).
Proof.
  intros Hreach. pose proof (reachable_ok ws Hreach) as Hok.
  split; [done|]. split; intros v ?.
  - by apply well_form_ok.
  - by apply delete_button_ok.
Qed.

End Invariants.

Lemma equal_lengths_invariant_witness :
  let ws := [Sample.a_well "W0"] in
  Forall record_ok ws
  /\ (forall v edit_index,
        Forall record_ok
          (wells_data (well_form v edit_index (fresh_run ws)).2))
  /\ (forall v delete_well,
        Forall record_ok
          (wells_data (delete_button v delete_well (fresh_run ws)).2)).
Proof.
  apply (equal_lengths_invariant [Sample.a_well "W0"]).
  exact (reach_run [] (Sample.save "W0" "Top_Shale" "500" 0) reach_start).
Defined.

(** ** Names as keys *)

Section Uniqueness.

Context {F : Type} `{PyFloat F}.

Implicit Types (s : run F) (ws : list (well F)) (v : widgets F).

Lemma names_app ws1 ws2 : names (ws1 ++ ws2) = names ws1 ++ names ws2.
Proof. unfold names. apply fmap_app. Qed.

Lemma names_filter_sublist ws (delete_well : string) :
  names (filter (fun w => well_name w ≠ delete_well) ws) `sublist_of` names ws.
Proof. unfold names. apply fmap_sublist, sublist_filter. Qed.

(** C7, as amended: the code never checks a name against the stored ones,
    so uniqueness of names is not an invariant; it is kept by the delete
    action, by an add whose name is not stored yet, and by an edit whose
    form name is the target itself or is not stored yet. *)
Theorem unique_names_preserved v v' edit_index delete_well s :
  NoDup (names (wells_data s)) ->
  (edit_index = "None" -> well_name_text v ∉ names (wells_data s)) ->
  (edit_index ≠ "None" ->
   well_name_text v = edit_index \/ well_name_text v ∉ names (wells_data s)) ->
  NoDup (names (wells_data (well_form v edit_index s).2))
  /\ NoDup (names (wells_data (delete_button v' delete_well s).2)).
Proof.
  intros Hnodup Hadd Hedit. split.
  - destruct (well_form_cases v edit_index s) as (s' & -> & Hcases). simpl.
    destruct Hcases as [->|(ds & _ & _ & Hcases)]; [done|].
    destruct Hcases as [[Hnone ->]|(Hsome & mid & w & post & Hws & _ & Hw & ->)].
    + rewrite names_app. apply NoDup_app. split; [done|]. split.
      * intros n Hn Hin. apply list_elem_of_singleton in Hin. subst n.
        by apply (Hadd Hnone).
      * apply NoDup_singleton.
    + rewrite Hws, names_app in Hnodup. simpl in Hnodup.
      rewrite names_app. simpl.
      destruct (Hedit Hsome) as [Hsame|Hfresh].
      * by rewrite Hsame, <- Hw.
      * rewrite Hws, names_app in Hfresh. simpl in Hfresh.
        apply NoDup_app in Hnodup as (Hmid & Hdisj & Hpost).
        apply NoDup_cons in Hpost as [_ Hpost].
        apply NoDup_app. split; [done|]. split.
        -- intros n Hn Hin. apply elem_of_cons in Hin as [->|Hin].
           ++ apply Hfresh. apply elem_of_app. by left.
           ++ apply (Hdisj n Hn). by right.
        -- apply NoDup_cons. split; [|done].
           intros Hin. apply Hfresh. apply elem_of_app. right. by right.
  - destruct (delete_button_cases v' delete_well s) as (s' & -> & Hcases).
    simpl. destruct Hcases as [->| ->]; [done|].
    eapply sublist_NoDup; [exact Hnodup|]. apply names_filter_sublist.
Qed.

End Uniqueness.

(** C7, as stated, fails: saving the same form twice without an edit target
    is two runs of the script, and the store then holds two records named
    "W1". *)
Lemma duplicate_names_reachable :
  ~ (forall ws : list (well FloatLit.pyfloat),
       reachable ws -> NoDup (names ws)).
Proof.
  intros Hall.
  pose (v := Sample.save "W1" "Top_Shale" "500" 0).
  pose proof (Hall _ (reach_run _ v (reach_run _ v reach_start))) as Hnodup.
  vm_compute in Hnodup.
  apply NoDup_cons in Hnodup as [Hnotin _].
  apply Hnotin. constructor.
Qed.

Lemma unique_names_preserved_witness :
  NoDup (names (wells_data
                  (well_form (Sample.save "W1" "Top_Shale" "500" 0) "None"
                     (fresh_run [Sample.a_well "W0"])).2))
  /\ NoDup (names (wells_data
                     (delete_button (Sample.delete 0) "W0"
                        (fresh_run [Sample.a_well "W0"])).2)).
Proof.
  apply (unique_names_preserved (Sample.save "W1" "Top_Shale" "500" 0)
           (Sample.delete 0) "None" "W0" (fresh_run [Sample.a_well "W0"])).
  - vm_compute. apply NoDup_singleton.
  - intros _. vm_compute. intros Hin.
    apply list_elem_of_singleton in Hin. discriminate.
  - intros Hne. by destruct Hne.
Defined.

(** ** The interpolated surface *)

Section SurfaceFacts.

Context {F : Type} `{PyFloat F} `{FloatArith F}.

Implicit Types (s : run F) (ws : list (well F)) (v : widgets F).

(** The formation selectbox always holds one of the five keys. *)
Lemma formation_selected v :
  exists formation_to_plot,
    selectbox (map fst formation_colors) (formation_choice v)
    = Some formation_to_plot.
Proof.
  unfold selectbox.
  destruct (map fst formation_colors !! formation_choice v) as [f|]; eauto.
Qed.

Lemma mask_rows_filter (rows : list (point (F:=F))) (target : string) :
  mask_rows rows
    (map (fun f => bool_decide (f = target)) (map pt_formation rows))
  = filter (fun p => pt_formation p = target) rows.
Proof.
  induction rows as [|r rows IH]; [done|]. simpl.
  rewrite filter_cons, IH.
  case_bool_decide.
  - by rewrite decide_True.
  - by rewrite decide_False.
Qed.

Lemma length_linspace (start stop : F) num :
  length (linspace start stop num) = num.
Proof.
  unfold linspace.
  assert (forall l : list F, length l = num ->
            length (if (1 <? num)%nat then <[(num - 1)%nat := stop]> l else l)
            = num) as Hlast.
  { intros l Hl. destruct (1 <? num)%nat; [by rewrite length_insert|done]. }
  apply Hlast. rewrite length_map.
  destruct (0 <? num - 1)%nat; [destruct (fis_zero _)|];
    by rewrite !length_map, length_seq.
Qed.

Lemma meshgrid_shape (xs ys : list F) :
  let '(grid_x, grid_y) := meshgrid xs ys in
  length grid_x = length ys
  /\ Forall (fun row => length row = length xs) grid_x
  /\ length grid_y = length ys
  /\ Forall (fun row => length row = length xs) grid_y.
Proof.
  unfold meshgrid. rewrite !length_map. repeat split.
  - apply Forall_fmap, Forall_forall. by intros.
  - apply Forall_fmap, Forall_forall. intros yv _. simpl.
    by rewrite length_map.
Qed.

(** C5: in a store without wells the frame has no columns, so selecting
    the "formation" column raises [KeyError]; the run ends there, with no
    warning on the page, whatever formation is selected. *)
Theorem surface_of_empty_store_raises v (shown : list message) :
  surface_section v {| wells_data := []; page := shown |}
  = (inl (KeyError "formation"), {| wells_data := []; page := shown |}).
Proof.
  unfold surface_section.
  destruct (formation_selected v) as [formation_to_plot ->].
  reflexivity.
Qed.

Lemma column_formation_present (data : list (point (F:=F))) :
  data ≠ [] ->
  column_formation (pd_DataFrame data) = mret (map pt_formation data).
Proof.
  intros Hdata. destruct data as [|p0 data]; [done|].
  unfold column_formation. cbn [columns records pd_DataFrame].
  by rewrite bool_decide_eq_true_2 by (do 2 constructor).
Qed.

(** The section once the frame has a "formation" column. *)
Lemma surface_section_unfold v s formation_to_plot :
  map_data (wells_data s) ≠ [] ->
  selectbox (map fst formation_colors) (formation_choice v)
  = Some formation_to_plot ->
  let pts := filter (fun p => pt_formation p = formation_to_plot)
               (map_data (wells_data s)) in
  let xs := map pt_x pts in
  let ys := map pt_y pts in
  surface_section v s
  = if (3 <=? length pts)%nat then
      (inr (Some (meshgrid
                    (linspace (series_min xs (of_nat 0))
                       (series_max xs (of_nat 0)) 100)
                    (linspace (series_min ys (of_nat 0))
                       (series_max ys (of_nat 0)) 100))),
       s)
    else
      (inr None,
       {| wells_data := wells_data s;
          page := page s ++
            [st_warning "Need at least 3 points for interpolation."] |}).
Proof.
  intros Hdata Hsel pts xs ys. unfold surface_section.
  unfold mbind at 1, script_bind at 1, bind at 1, get_wells.
  rewrite Hsel, (column_formation_present _ Hdata).
  unfold mbind at 1, script_bind at 1, bind at 1, mret, script_ret, ret.
  cbn [records pd_DataFrame]. rewrite mask_rows_filter.
  fold pts. fold xs. fold ys.
  by destruct (3 <=? length pts)%nat.
Qed.

(** With at least one point in the frame, fewer than three points of the
    selected formation give the warning and no grid. *)
Lemma surface_few_points v s formation_to_plot :
  map_data (wells_data s) ≠ [] ->
  selectbox (map fst formation_colors) (formation_choice v)
  = Some formation_to_plot ->
  (length (filter (fun p => pt_formation p = formation_to_plot)
             (map_data (wells_data s))) < 3)%nat ->
  surface_section v s
  = (inr None,
     {| wells_data := wells_data s;
        page := page s ++
          [st_warning "Need at least 3 points for interpolation."] |}).
Proof.
  intros Hdata Hsel Hfew.
  rewrite (surface_section_unfold v s formation_to_plot Hdata Hsel).
  apply Nat.leb_gt in Hfew. by rewrite Hfew.
Qed.

(** With three or more points of the selected formation, the grid handed
    to [griddata] has 100 rows of 100 nodes, for both coordinates, built
    from the two [linspace] calls over the points' ranges. *)
Lemma surface_grid v s formation_to_plot :
  selectbox (map fst formation_colors) (formation_choice v)
  = Some formation_to_plot ->
  (3 <= length (filter (fun p => pt_formation p = formation_to_plot)
                  (map_data (wells_data s))))%nat ->
  let pts := filter (fun p => pt_formation p = formation_to_plot)
               (map_data (wells_data s)) in
  let xs := map pt_x pts in
  let ys := map pt_y pts in
  let grid :=
    meshgrid
      (linspace (series_min xs (of_nat 0)) (series_max xs (of_nat 0)) 100)
      (linspace (series_min ys (of_nat 0)) (series_max ys (of_nat 0)) 100) in
  surface_section v s = (inr (Some grid), s)
  /\ length grid.1 = 100%nat
  /\ Forall (fun row => length row = 100%nat) grid.1
  /\ length grid.2 = 100%nat
  /\ Forall (fun row => length row = 100%nat) grid.2.
Proof.
  intros Hsel Hmany pts xs ys grid. split.
  - assert (map_data (wells_data s) ≠ []) as Hdata.
    { intros Hnil. rewrite Hnil in Hmany. simpl in Hmany. lia. }
    rewrite (surface_section_unfold v s formation_to_plot Hdata Hsel).
    apply Nat.leb_le in Hmany. by rewrite Hmany.
  - pose proof (meshgrid_shape
                  (linspace (series_min xs (of_nat 0)) (series_max xs (of_nat 0)) 100)
                  (linspace (series_min ys (of_nat 0)) (series_max ys (of_nat 0)) 100))
      as Hshape.
    fold grid in Hshape. destruct grid as [grid_x grid_y].
    by rewrite !length_linspace in Hshape.
Qed.

(** The first run of a session, with nothing pressed, already ends in the
    [KeyError]. *)
Lemma first_run_raises v :
  submitted v = false ->
  script_run v (fresh_run []) = (inl (KeyError "formation"), fresh_run []).
Proof.
  intros Hsub. unfold script_run.
  unfold mbind at 1, script_bind at 1, bind at 1.
  assert (store_sections v (fresh_run []) = (inr tt, fresh_run [])) as ->.
  { unfold store_sections, mbind, script_bind, bind, get_wells. simpl.
    destruct (selectbox _ _); [|done].
    unfold well_form. by rewrite Hsub. }
  unfold surface_section.
  by destruct (formation_selected v) as [formation_to_plot ->].
Qed.


End SurfaceFacts.

(** ** The form's texts: [split] and [strip] *)

Section Texts.

Import PyStr PyText.

Lemma split_not_nil sep s : exists h t, split sep s = h :: t.
Proof.
  induction s as [|c r IH]; simpl; [by eauto|].
  destruct (Ascii.eqb c sep); [by eauto|].
  destruct IH as (h & t & ->). by eauto.
Qed.

Lemma split_length sep s : length (split sep s) = S (count_char sep s).
Proof.
  induction s as [|c r IH]; simpl; [done|].
  destruct (Ascii.eqb c sep); simpl; [by rewrite IH|].
  destruct (split_not_nil sep r) as (h & t & Hr).
  rewrite Hr in *. by simpl in *.
Qed.

Lemma join_split sep s : join sep (split sep s) = s.
Proof.
  induction s as [|c r IH]; [done|]. cbn [split].
  destruct (split_not_nil sep r) as (h & t & Hr). rewrite Hr in *.
  destruct (Ascii.eqb c sep) eqn:Hc.
  - apply Ascii.eqb_eq in Hc as ->.
    change (join sep (EmptyString :: h :: t))
      with (String sep (join sep (h :: t))).
    by rewrite IH.
  - destruct t as [|h' t].
    + simpl in *. by rewrite IH.
    + change (join sep (String c h :: h' :: t))
        with (String c (join sep (h :: h' :: t))).
      by rewrite IH.
Qed.

Lemma split_fields_without_sep sep s :
  Forall (fun f => contains sep f = false) (split sep s).
Proof.
  induction s as [|c r IH]; simpl; [by constructor|].
  destruct (Ascii.eqb c sep) eqn:Hc; [by constructor|].
  destruct (split_not_nil sep r) as (h & t & Hr). rewrite Hr in *.
  apply Forall_cons in IH as [Hh Ht]. constructor; [|done].
  simpl. by rewrite Hc, Hh.
Qed.

(** X13: [split] never returns the empty list; it returns one field more
    than the text has separators, no field holds the separator, and
    joining the fields with the separator gives the text back. *)
Theorem split_round_trip sep s :
  split sep s ≠ []
  /\ length (split sep s) = S (count_char sep s)
  /\ Forall (fun f => contains sep f = false) (split sep s)
  /\ join sep (split sep s) = s.
Proof.
  split.
  - by destruct (split_not_nil sep s) as (h & t & ->).
  - split; [apply split_length|].
    split; [apply split_fields_without_sep | apply join_split].
Qed.

Lemma append_String c (a b : string) :
  (String c a ++ b)%string = String c (a ++ b)%string.
Proof. reflexivity. Qed.

Lemma append_Empty (b : string) : (EmptyString ++ b)%string = b.
Proof. reflexivity. Qed.

Lemma append_Empty_r (a : string) : (a ++ EmptyString)%string = a.
Proof. induction a as [|c a IH]; [done|]. by rewrite append_String, IH. Qed.

Lemma lstrip_decompose s :
  exists pre, s = (pre ++ lstrip s)%string /\ all_space pre = true.
Proof.
  induction s as [|c r IH]; simpl; [by exists EmptyString|].
  destruct (is_space c) eqn:Hc; [|by exists EmptyString].
  destruct IH as (pre & Hr & Hpre).
  exists (String c pre). rewrite append_String, <- Hr. simpl.
  by rewrite Hc, Hpre.
Qed.

Lemma lstrip_no_leading_space s : starts_with_space (lstrip s) = false.
Proof.
  induction s as [|c r IH]; simpl; [done|].
  destruct (is_space c) eqn:Hc; [done|]. by simpl.
Qed.

Lemma lstrip_fixed s : starts_with_space s = false -> lstrip s = s.
Proof. destruct s as [|c r]; simpl; [done|]. by intros ->. Qed.

Lemma rstrip_decompose s :
  exists post, s = (rstrip s ++ post)%string /\ all_space post = true.
Proof.
  induction s as [|c r IH]; simpl; [by exists EmptyString|].
  destruct IH as (post & Hr & Hpost).
  destruct (rstrip r) as [|c' r'] eqn:Hrs.
  - rewrite append_Empty in Hr. subst post.
    destruct (is_space c) eqn:Hc.
    + exists (String c r). rewrite append_Empty. simpl. by rewrite Hc, Hpost.
    + exists r. by rewrite append_String, append_Empty.
  - exists post. by rewrite append_String, <- Hr.
Qed.

Lemma rstrip_no_trailing_space s : ends_with_space (rstrip s) = false.
Proof.
  induction s as [|c r IH]; simpl; [done|].
  destruct (rstrip r) as [|c' r'] eqn:Hrs.
  - destruct (is_space c) eqn:Hc; [done|]. by simpl.
  - by simpl in *.
Qed.

Lemma rstrip_fixed s : ends_with_space s = false -> rstrip s = s.
Proof.
  induction s as [|c r IH]; simpl; [done|].
  destruct r as [|c' r'].
  - simpl. by intros ->.
  - intros Hend. by rewrite (IH Hend).
Qed.

Lemma rstrip_keeps_start s :
  starts_with_space s = false -> starts_with_space (rstrip s) = false.
Proof.
  destruct s as [|c r]; simpl; [done|]. intros Hc.
  destruct (rstrip r); [by rewrite Hc|done].
Qed.

Lemma contains_app c (a b : string) :
  contains c (a ++ b)%string = contains c a || contains c b.
Proof.
  induction a as [|c' a IH]; [done|].
  rewrite append_String. simpl. by rewrite IH, orb_assoc.
Qed.

Lemma strip_keeps_absent c s :
  contains c s = false -> contains c (strip s) = false.
Proof.
  intros Hs. unfold strip.
  destruct (lstrip_decompose s) as (pre & Hl & _).
  destruct (rstrip_decompose (lstrip s)) as (post & Hr & _).
  rewrite Hl, Hr, !contains_app in Hs.
  apply orb_false_iff in Hs as [_ Hs].
  by apply orb_false_iff in Hs as [Hs _].
Qed.

Lemma strip_idempotent s : strip (strip s) = strip s.
Proof.
  unfold strip.
  rewrite (lstrip_fixed (rstrip (lstrip s))).
  - apply rstrip_fixed, rstrip_no_trailing_space.
  - apply rstrip_keeps_start, lstrip_no_leading_space.
Qed.

(** X14: [strip] removes white space at both ends and nothing else: the
    text is the result between two runs of white space, the result neither
    starts nor ends with white space, and stripping it again changes
    nothing. *)
Theorem strip_trims_both_ends s :
  (exists pre post,
     s = (pre ++ strip s ++ post)%string
     /\ all_space pre = true /\ all_space post = true)
  /\ starts_with_space (strip s) = false
  /\ ends_with_space (strip s) = false
  /\ strip (strip s) = strip s.
Proof.
  split.
  - destruct (lstrip_decompose s) as (pre & Hl & Hpre).
    destruct (rstrip_decompose (lstrip s)) as (post & Hr & Hpost).
    exists pre, post. unfold strip. by rewrite <- Hr, <- Hl.
  - split; [apply rstrip_keeps_start, lstrip_no_leading_space|].
    split; [apply rstrip_no_trailing_space | apply strip_idempotent].
Qed.

(** A text of white space only strips to the empty text. *)
Lemma strip_all_space s : all_space s = true -> strip s = EmptyString.
Proof.
  intros Hs. unfold strip.
  assert (lstrip s = EmptyString) as ->; [|done].
  induction s as [|c r IH]; simpl in *; [done|].
  apply andb_true_iff in Hs as [-> Hr]. by apply IH.
Qed.

End Texts.

(** ** The form and the button within a run *)

Section RunFacts.

Context {F : Type} `{PyFloat F}.

Implicit Types (s : run F) (ws : list (well F)) (v : widgets F).

Lemma selectbox_elem (options : list string) choice o :
  selectbox options choice = Some o -> o ∈ options.
Proof.
  unfold selectbox. destruct (options !! choice) as [o'|] eqn:Hlook.
  - intros [= <-]. by eapply list_elem_of_lookup_2.
  - destruct options as [|o' options]; [done|]. simpl.
    intros [= <-]. constructor.
Qed.

Lemma selectbox_nonempty o (options : list string) choice :
  exists o', selectbox (o :: options) choice = Some o'.
Proof.
  unfold selectbox. destruct ((o :: options) !! choice); simpl; eauto.
Qed.

(** Without a click on "Delete Well" the run is what the form does. *)
Lemma store_sections_form_only v s :
  delete_clicked v = false ->
  exists edit_index,
    selectbox ("None" :: names (wells_data s)) (edit_choice v) = Some edit_index
    /\ store_sections v s = well_form v edit_index s.
Proof.
  intros Hclick.
  destruct (selectbox_nonempty "None" (names (wells_data s)) (edit_choice v))
    as [edit_index Hsel].
  exists edit_index. split; [done|].
  unfold store_sections, mbind, script_bind, bind, get_wells. simpl.
  fold (names (wells_data s)). rewrite Hsel.
  destruct (well_form_cases v edit_index s) as (s1 & -> & _).
  destruct (wells_data s1) as [|w1 ws1]; [reflexivity|].
  destruct (selectbox (map well_name (w1 :: ws1)) (delete_choice v));
    [|reflexivity].
  unfold delete_button. by rewrite Hclick.
Qed.

(** X1: a valid submission without edit target appends exactly the new
    record at the end of the list, leaves the stored records where they
    were, and shows "Well '...' added." *)
Theorem add_appends_last v s :
  valid_submission v ->
  exists ds,
    parse_depths v = Some ds
    /\ well_form v "None" s
       = (inr tt,
          {| wells_data := wells_data s ++ [new_entry v ds];
             page := page s ++
               [st_success ("Well '" ++ well_name_text v ++ "' added.")] |}).
Proof.
  intros Hvalid.
  destruct (valid_submission_parses v Hvalid) as (ds & Hds & Hlen).
  destruct Hvalid as (Hsub & _). exists ds. split; [done|].
  by rewrite (well_form_valid v "None" s ds Hsub Hds Hlen), decide_True.
Qed.

(** X2: the replacement loop has no [else]: a valid submission whose
    target is neither "None" nor the name of a stored record changes
    nothing and shows nothing. *)
Theorem edit_of_absent_target_is_silent v edit_index s :
  valid_submission v ->
  edit_index ≠ "None" ->
  edit_index ∉ names (wells_data s) ->
  well_form v edit_index s = (inr tt, s).
Proof.
  intros Hvalid Hedit Hout.
  destruct (valid_submission_parses v Hvalid) as (ds & Hds & Hlen).
  destruct Hvalid as (Hsub & _).
  rewrite (well_form_valid v edit_index s ds Hsub Hds Hlen).
  rewrite decide_False by done. apply update_existing_miss.
  apply Forall_forall. intros w Hw Heq. apply Hout. subst edit_index.
  by apply list_elem_of_fmap_2.
Qed.

(** X3: within a run the edit target comes from the selectbox, so a valid
    submission always takes effect: it is appended with the "added"
    message, or it replaces the first record named as the target with the
    "updated" message. *)
Theorem run_valid_submission_takes_effect v s :
  valid_submission v ->
  delete_clicked v = false ->
  exists edit_index ds,
    selectbox ("None" :: names (wells_data s)) (edit_choice v) = Some edit_index
    /\ parse_depths v = Some ds
    /\ ((edit_index = "None"
         /\ store_sections v s
            = (inr tt,
               {| wells_data := wells_data s ++ [new_entry v ds];
                  page := page s ++
                    [st_success ("Well '" ++ well_name_text v ++ "' added.")] |}))
        \/ (edit_index ≠ "None"
            /\ exists mid w post,
                 wells_data s = mid ++ w :: post
                 /\ Forall (fun w' => well_name w' ≠ edit_index) mid
                 /\ well_name w = edit_index
                 /\ store_sections v s
                    = (inr tt,
                       {| wells_data := mid ++ new_entry v ds :: post;
                          page := page s ++
                            [st_success ("Well '" ++ edit_index ++ "' updated.")] |}))).
Proof.
  intros Hvalid Hclick.
  destruct (store_sections_form_only v s Hclick) as (edit_index & Hsel & ->).
  destruct (valid_submission_parses v Hvalid) as (ds & Hds & Hlen).
  destruct Hvalid as (Hsub & _).
  exists edit_index, ds. do 2 (split; [done|]).
  destruct (decide (edit_index = "None")) as [Hnone|Hedit].
  - left. split; [done|].
    by rewrite (well_form_valid v edit_index s ds Hsub Hds Hlen), decide_True.
  - right. split; [done|].
    apply selectbox_elem, elem_of_cons in Hsel as [Hsel|Hin]; [done|].
    destruct (first_named_split _ _ Hin) as (mid & w & post & Hws & Hmid & Hw).
    exists mid, w, post. do 3 (split; [done|]).
    by apply (well_form_edit v edit_index s ds mid w post).
Qed.

Lemma filter_other_names_shorter ws (name : string) :
  name ∈ names ws ->
  (length (filter (fun w => well_name w ≠ name) ws) < length ws)%nat.
Proof.
  intros Hin. apply list_elem_of_fmap in Hin as (w & -> & Hw).
  eapply length_filter_lt; [exact Hw|]. by intros Hne.
Qed.

(** X4: a click on "Delete Well" in a run without submission does nothing
    on an empty store; on a non-empty store the selected name is one of the
    stored names, every record of that name goes, the list gets strictly
    shorter, and the page shows "Deleted well: ...". *)
Theorem run_delete_shrinks v s :
  submitted v = false ->
  delete_clicked v = true ->
  match wells_data s with
  | [] => store_sections v s = (inr tt, s)
  | _ :: _ =>
      exists delete_well,
        delete_well ∈ names (wells_data s)
        /\ store_sections v s
           = (inr tt,
              {| wells_data :=
                   filter (fun w => well_name w ≠ delete_well) (wells_data s);
                 page := page s ++
                   [st_success ("Deleted well: " ++ delete_well)] |})
        /\ (length (filter (fun w => well_name w ≠ delete_well) (wells_data s))
            < length (wells_data s))%nat
  end.
Proof.
  intros Hsub Hclick.
  assert (store_sections v s
          = match wells_data s with
            | [] => (inr tt, s)
            | _ :: _ =>
                match selectbox (names (wells_data s)) (delete_choice v) with
                | None => (inr tt, s)
                | Some delete_well => delete_button v delete_well s
                end
            end) as Hrun.
  { unfold store_sections, mbind, script_bind, bind, get_wells. simpl.
    destruct (selectbox _ (edit_choice v)) as [edit_index|].
    - unfold well_form. rewrite Hsub. simpl. unfold names.
      destruct (wells_data s) as [|w l]; [reflexivity|].
      destruct (selectbox (map well_name (w :: l)) (delete_choice v));
        reflexivity.
    - simpl. unfold names.
      destruct (wells_data s) as [|w l]; [reflexivity|].
      destruct (selectbox (map well_name (w :: l)) (delete_choice v));
        reflexivity. }
  rewrite Hrun. destruct (wells_data s) as [|w0 ws] eqn:Hws; [done|].
  destruct (selectbox_nonempty (well_name w0) (names ws) (delete_choice v))
    as [delete_well Hsel].
  change (names (w0 :: ws)) with (well_name w0 :: names ws).
  rewrite Hsel. exists delete_well.
  split; [by apply selectbox_elem in Hsel|].
  split.
  - by rewrite (delete_button_clicked v delete_well s Hclick), Hws.
  - apply filter_other_names_shorter. by apply selectbox_elem in Hsel.
Qed.

(** X5: when the stored names are pairwise different, deleting a stored
    name removes exactly one record. *)
Theorem delete_of_unique_name_removes_one v delete_well s :
  delete_clicked v = true ->
  NoDup (names (wells_data s)) ->
  delete_well ∈ names (wells_data s) ->
  S (length (wells_data (delete_button v delete_well s).2))
  = length (wells_data s).
Proof.
  intros Hclick Hnodup Hin.
  rewrite (delete_button_clicked v delete_well s Hclick). simpl.
  induction (wells_data s) as [|w ws IH]; [by apply elem_of_nil in Hin|].
  change (names (w :: ws)) with (well_name w :: names ws) in *.
  apply NoDup_cons in Hnodup as [Hw Hnodup].
  rewrite filter_cons.
  destruct (decide (well_name w ≠ delete_well)) as [Hne|Heq].
  - simpl. f_equal. apply IH; [done|].
    apply elem_of_cons in Hin as [Hin|Hin]; [by subst|done].
  - apply dec_stable in Heq. subst delete_well. f_equal.
    clear IH Hin Hnodup. induction ws as [|w' ws IH]; [done|].
    change (names (w' :: ws)) with (well_name w' :: names ws) in Hw.
    apply not_elem_of_cons in Hw as [Hne Hw].
    rewrite filter_cons, decide_True by done. simpl. f_equal. by apply IH.
Qed.

(** X6: deleting composes like filtering: deleting the same name again
    changes nothing, and two deletions give the same list in either
    order. *)
Theorem delete_twice_and_swapped v d1 d2 s :
  delete_clicked v = true ->
  wells_data (delete_button v d1 (delete_button v d1 s).2).2
  = wells_data (delete_button v d1 s).2
  /\ wells_data (delete_button v d1 (delete_button v d2 s).2).2
     = wells_data (delete_button v d2 (delete_button v d1 s).2).2.
Proof.
  intros Hclick. rewrite !(delete_button_clicked v _ _ Hclick). simpl.
  split.
  - induction (wells_data s) as [|w ws IH]; [done|].
    rewrite filter_cons. destruct (decide (well_name w ≠ d1)); [|done].
    rewrite filter_cons, decide_True by done. by rewrite IH.
  - induction (wells_data s) as [|w ws IH]; [done|].
    rewrite !(filter_cons _ w ws).
    destruct (decide (well_name w ≠ d2)), (decide (well_name w ≠ d1));
      rewrite ?filter_cons, ?decide_True, ?decide_False by done;
      by rewrite IH.
Qed.

(** X15: a depths text with an empty or blank field (the empty text, a
    doubled or a trailing comma) is rejected like any other non-number,
    [float] of the empty text being a [ValueError]. *)
Theorem blank_depth_field_rejected v edit_index s tok :
  submitted v = true ->
  float "" = None ->
  tok ∈ PyStr.split PyStr.comma (formation_depths v) ->
  PyText.all_space tok = true ->
  well_form v edit_index s
  = (inr tt,
     {| wells_data := wells_data s;
        page := page s ++ [st_error "Depths must be valid numbers."] |}).
Proof.
  intros Hsub Hempty Hin Hblank. unfold well_form, try_except_ValueError.
  rewrite Hsub, well_form_try_unfold.
  rewrite (parse_depths_bad_token v tok Hin); [done|].
  by rewrite (strip_all_space tok Hblank).
Qed.

End RunFacts.

Ltac valid_sample :=
  split; [reflexivity|]; split; [all_floats | reflexivity].

Lemma add_appends_last_witness :
  exists ds,
    parse_depths (Sample.save "W1" "Top_Shale, Sand_A" "500, 750" 0) = Some ds
    /\ well_form (Sample.save "W1" "Top_Shale, Sand_A" "500, 750" 0) "None"
         (fresh_run [Sample.a_well "W0"])
       = (inr tt,
          {| wells_data :=
               [Sample.a_well "W0"]
               ++ [new_entry (Sample.save "W1" "Top_Shale, Sand_A" "500, 750" 0) ds];
             page := [] ++ [st_success ("Well '" ++ "W1" ++ "' added.")] |}).
Proof.
  apply (add_appends_last (Sample.save "W1" "Top_Shale, Sand_A" "500, 750" 0)
           (fresh_run [Sample.a_well "W0"])).
  valid_sample.
Defined.

Lemma edit_of_absent_target_is_silent_witness :
  well_form (Sample.save "W1" "Top_Shale" "500" 0) "W7"
    (fresh_run [Sample.a_well "W0"])
  = (inr tt, fresh_run [Sample.a_well "W0"]).
Proof.
  apply (edit_of_absent_target_is_silent (Sample.save "W1" "Top_Shale" "500" 0)
           "W7" (fresh_run [Sample.a_well "W0"])).
  - valid_sample.
  - discriminate.
  - vm_compute. intros Hin. apply list_elem_of_singleton in Hin. discriminate.
Defined.

Lemma run_valid_submission_takes_effect_witness :
  let v := Sample.save "W9" "Top_Shale" "510" 1 in
  let s := fresh_run [Sample.a_well "W0"] in
  exists edit_index ds,
    selectbox ("None" :: names (wells_data s)) (edit_choice v) = Some edit_index
    /\ parse_depths v = Some ds
    /\ ((edit_index = "None"
         /\ store_sections v s
            = (inr tt,
               {| wells_data := wells_data s ++ [new_entry v ds];
                  page := page s ++
                    [st_success ("Well '" ++ well_name_text v ++ "' added.")] |}))
        \/ (edit_index ≠ "None"
            /\ exists mid w post,
                 wells_data s = mid ++ w :: post
                 /\ Forall (fun w' => well_name w' ≠ edit_index) mid
                 /\ well_name w = edit_index
                 /\ store_sections v s
                    = (inr tt,
                       {| wells_data := mid ++ new_entry v ds :: post;
                          page := page s ++
                            [st_success ("Well '" ++ edit_index ++ "' updated.")] |}))).
Proof.
  apply (run_valid_submission_takes_effect (Sample.save "W9" "Top_Shale" "510" 1)
           (fresh_run [Sample.a_well "W0"])).
  - valid_sample.
  - reflexivity.
Defined.

Lemma run_delete_shrinks_witness :
  let s := fresh_run [Sample.a_well "W0"; Sample.a_well "W1"] in
  exists delete_well,
    delete_well ∈ names (wells_data s)
    /\ store_sections (Sample.delete 1) s
       = (inr tt,
          {| wells_data :=
               filter (fun w => well_name w ≠ delete_well) (wells_data s);
             page := page s ++ [st_success ("Deleted well: " ++ delete_well)] |})
    /\ (length (filter (fun w => well_name w ≠ delete_well) (wells_data s))
        < length (wells_data s))%nat.
Proof.
  exact (run_delete_shrinks (Sample.delete 1)
           (fresh_run [Sample.a_well "W0"; Sample.a_well "W1"])
           eq_refl eq_refl).
Defined.

Lemma delete_of_unique_name_removes_one_witness :
  S (length
       (wells_data
          (delete_button (Sample.delete 0) "W0"
             (fresh_run [Sample.a_well "W0"; Sample.a_well "W1"])).2))
  = length (wells_data (fresh_run [Sample.a_well "W0"; Sample.a_well "W1"])).
Proof.
  apply (delete_of_unique_name_removes_one (Sample.delete 0) "W0"
           (fresh_run [Sample.a_well "W0"; Sample.a_well "W1"])).
  - reflexivity.
  - vm_compute. apply NoDup_cons. split; [|apply NoDup_singleton].
    intros Hin. apply list_elem_of_singleton in Hin. discriminate.
  - vm_compute. constructor.
Defined.

Lemma delete_twice_and_swapped_witness :
  let s := fresh_run [Sample.a_well "W0"; Sample.a_well "W1"; Sample.a_well "W2"] in
  wells_data (delete_button (Sample.delete 0) "W0"
                (delete_button (Sample.delete 0) "W0" s).2).2
  = wells_data (delete_button (Sample.delete 0) "W0" s).2
  /\ wells_data (delete_button (Sample.delete 0) "W0"
                   (delete_button (Sample.delete 0) "W2" s).2).2
     = wells_data (delete_button (Sample.delete 0) "W2"
                     (delete_button (Sample.delete 0) "W0" s).2).2.
Proof.
  apply (delete_twice_and_swapped (Sample.delete 0) "W0" "W2"
           (fresh_run
              [Sample.a_well "W0"; Sample.a_well "W1"; Sample.a_well "W2"])).
  reflexivity.
Defined.

Lemma blank_depth_field_rejected_witness :
  well_form (Sample.save "W1" "Top_Shale, Sand_A" "500, " 0) "None"
    (fresh_run [Sample.a_well "W0"])
  = (inr tt,
     {| wells_data := [Sample.a_well "W0"];
        page := [st_error "Depths must be valid numbers."] |}).
Proof.
  apply (blank_depth_field_rejected
           (Sample.save "W1" "Top_Shale, Sand_A" "500, " 0)
           "None" (fresh_run [Sample.a_well "W0"]) " ").
  - reflexivity.
  - reflexivity.
  - vm_compute. do 2 constructor.
  - reflexivity.
Defined.

(** ** What every stored record looks like *)

Section StoredRecords.

Context {F : Type} `{PyFloat F}.

Implicit Types (s : run F) (ws : list (well F)) (v : widgets F).

(** A property of records that every record built by the form has is kept
    by a run. *)
Lemma store_sections_keeps (P : well F -> Prop) v s :
  (forall ds,
     length (PyStr.split PyStr.comma (formation_names v)) = length ds ->
     P (new_entry v ds)) ->
  Forall P (wells_data s) ->
  Forall P (wells_data (store_sections v s).2).
Proof.
  intros Hnew Hall.
  assert (forall edit_index s1,
            well_form v edit_index s = (inr tt, s1) ->
            Forall P (wells_data s1)) as Hform.
  { intros edit_index s1 Hrun.
    destruct (well_form_cases v edit_index s) as (s' & Hrun' & Hcases).
    rewrite Hrun in Hrun'. injection Hrun' as <-.
    destruct Hcases as [->|(ds & _ & Hlen & Hcases)]; [done|].
    destruct Hcases as [[_ ->]|(_ & mid & w & post & Hws & _ & _ & ->)].
    - apply Forall_app. split; [done|]. constructor; [by apply Hnew|done].
    - rewrite Hws in Hall. apply Forall_app in Hall as [Hmid Hpost].
      apply Forall_cons in Hpost as [_ Hpost].
      apply Forall_app. split; [done|]. constructor; [by apply Hnew|done]. }
  destruct (store_sections_cases v s)
    as (edit_index & s1 & Hrun & [-> | (delete_well & ->)]).
  - by apply (Hform edit_index).
  - destruct (delete_button_cases v delete_well s1) as (s2 & -> & Hcases).
    simpl. destruct Hcases as [->| ->]; [by apply (Hform edit_index)|].
    apply Forall_forall. intros w Hw.
    apply list_elem_of_filter in Hw as [_ Hw].
    pose proof (Hform edit_index s1 Hrun) as Hs1.
    by eapply Forall_forall in Hs1.
Qed.

Lemma reachable_keeps (P : well F -> Prop) ws :
  (forall v ds,
     length (PyStr.split PyStr.comma (formation_names v)) = length ds ->
     P (new_entry v ds)) ->
  reachable ws -> Forall P ws.
Proof.
  intros Hnew. induction 1 as [|ws v _ IH]; [constructor|].
  apply store_sections_keeps; [by apply Hnew|done].
Qed.

Lemma new_entry_clean v ds : record_clean (new_entry v ds).
Proof.
  split; simpl.
  - destruct (split_not_nil PyStr.comma (formation_names v)) as (h & t & ->).
    done.
  - apply Forall_fmap, Forall_forall. intros f Hf. simpl. split.
    + apply strip_idempotent.
    + apply strip_keeps_absent.
      pose proof (split_fields_without_sep PyStr.comma (formation_names v))
        as Hall.
      by eapply Forall_forall in Hall.
Qed.

(** X7: every record of every reachable store lists at least one
    formation, and every stored formation name is trimmed and holds no
    comma. *)
Theorem stored_formations_are_clean ws :
  reachable ws -> Forall record_clean ws.
Proof.
  apply reachable_keeps. intros v ds _. apply new_entry_clean.
Qed.

Lemma map_data_from acc ws :
  fold_left
    (fun acc (w : well F) =>
       fold_left
         (fun acc '(form, depth) =>
            acc ++ [ {| pt_well := well_name w;
                        pt_formation := form;
                        pt_x := x w;
                        pt_y := y w;
                        pt_depth := depth;
                        pt_color := dict_get formation_colors form [0; 0; 255] |} ])
         (zip (formations w) (depths w)) acc)
    ws acc
  = acc ++ concat (map well_points ws).
Proof.
  revert acc. induction ws as [|w ws IH]; intros acc; simpl.
  - by rewrite app_nil_r.
  - rewrite IH, app_assoc. f_equal.
    unfold well_points. generalize (zip (formations w) (depths w)).
    intros pairs. revert acc.
    induction pairs as [|[form depth] pairs IHp]; intros acc; simpl.
    + by rewrite app_nil_r.
    + by rewrite IHp, <- app_assoc.
Qed.

Lemma elem_of_concat {A} (a : A) (ls : list (list A)) :
  a ∈ concat ls <-> exists l, a ∈ l /\ l ∈ ls.
Proof.
  induction ls as [|l0 ls IH]; simpl.
  - split; [by intros Hin%elem_of_nil|]. by intros (l & _ & Hl%elem_of_nil).
  - rewrite elem_of_app, IH. split.
    + intros [Hin|(l & Hin & Hl)].
      * exists l0. split; [done|constructor].
      * exists l. split; [done|by constructor].
    + intros (l & Hin & Hl). apply elem_of_cons in Hl as [->|Hl]; eauto.
Qed.

Lemma map_data_concat ws : map_data ws = concat (map well_points ws).
Proof. unfold map_data. by rewrite map_data_from. Qed.

(** X8: the two nested loops of lines 102-112 list the points well by
    well in the order of the store, each well's pairs in their order; a
    point is listed exactly when it is a point of a stored well. *)
Theorem map_data_by_well ws :
  map_data ws = concat (map well_points ws)
  /\ (forall p, p ∈ map_data ws <-> exists w, w ∈ ws /\ p ∈ well_points w).
Proof.
  split; [apply map_data_concat|]. intros p.
  rewrite map_data_concat, elem_of_concat. split.
  - intros (pts & Hp & Hpts).
    apply list_elem_of_fmap in Hpts as (w & -> & Hw). eauto.
  - intros (w & Hw & Hp). exists (well_points w). split; [done|].
    by apply list_elem_of_fmap_2.
Qed.

Lemma well_points_formations (w : well F) :
  record_ok w -> map pt_formation (well_points w) = formations w.
Proof.
  intros Hok. unfold well_points. rewrite map_map. simpl.
  change (map (fun fd : string * F => fd.1) (zip (formations w) (depths w)))
    with ((zip (formations w) (depths w)).*1).
  apply fst_zip. unfold record_ok in Hok. lia.
Qed.

Lemma filter_length_by_formation (pts : list (point (F:=F))) (target : string) :
  length (filter (fun p => pt_formation p = target) pts)
  = length (filter (fun f => f = target) (map pt_formation pts)).
Proof.
  induction pts as [|p pts IH]; [done|]. simpl.
  rewrite !filter_cons.
  destruct (decide (pt_formation p = target)); simpl; by rewrite IH.
Qed.

(** X9: the number of points the interpolation counts for a formation is
    the number of times the wells list it, so a well that lists the
    formation several times counts several times. *)
Theorem points_of_formation_count ws (target : string) :
  Forall record_ok ws ->
  length (filter (fun p => pt_formation p = target) (map_data ws))
  = sum_list (map (fun w => length (filter (fun f => f = target) (formations w)))
                ws).
Proof.
  intros Hok. rewrite map_data_concat.
  induction Hok as [|w ws Hw _ IH]; [done|]. simpl.
  rewrite filter_app, length_app, IH. f_equal.
  by rewrite filter_length_by_formation, well_points_formations.
Qed.

(** X10: in a reachable store there are no points exactly when there are
    no wells, so the frame of line 113 is empty only while the store is. *)
Theorem no_points_iff_no_wells ws :
  reachable ws -> map_data ws = [] <-> ws = [].
Proof.
  intros Hreach. split; [|by intros ->].
  rewrite map_data_concat.
  destruct ws as [|w ws]; [done|]. simpl. intros Hnil.
  apply app_eq_nil in Hnil as [Hw _].
  pose proof (reachable_keeps record_ok _
                (fun v ds Hlen => new_entry_ok v ds Hlen) Hreach) as Hok.
  pose proof (reachable_keeps record_clean _
                (fun v ds _ => new_entry_clean v ds) Hreach) as Hclean.
  apply Forall_cons in Hok as [Hok _].
  apply Forall_cons in Hclean as [[Hne _] _].
  apply (f_equal (map pt_formation)) in Hw.
  by rewrite (well_points_formations w Hok) in Hw.
Qed.

Lemma dict_get_missing {V} (d : list (string * V)) key default :
  key ∉ map fst d -> dict_get d key default = default.
Proof.
  induction d as [|[k val] d IH]; simpl; [done|]. intros Hout.
  apply not_elem_of_cons in Hout as [Hne Hout].
  rewrite bool_decide_eq_false_2 by done. by apply IH.
Qed.

Lemma dict_get_present {V} (d : list (string * V)) key val default :
  NoDup (map fst d) -> (key, val) ∈ d -> dict_get d key default = val.
Proof.
  induction d as [|[k val'] d IH]; simpl; intros Hnodup Hin.
  - by apply elem_of_nil in Hin.
  - apply NoDup_cons in Hnodup as [Hk Hnodup].
    apply elem_of_cons in Hin as [[= <- <-]|Hin].
    + by rewrite bool_decide_eq_true_2.
    + rewrite bool_decide_eq_false_2; [by apply IH|].
      intros ->. apply Hk. by apply (list_elem_of_fmap_2 fst) in Hin.
Qed.

(** X12: a point of one of the five formations of [formation_colors]
    carries that formation's colour; a point of any other formation is
    blue, [0, 0, 255]. *)
Theorem point_colors ws (p : point (F:=F)) :
  p ∈ map_data ws ->
  (forall color, (pt_formation p, color) ∈ formation_colors ->
                 pt_color p = color)
  /\ (pt_formation p ∉ map fst formation_colors -> pt_color p = [0; 0; 255]).
Proof.
  intros Hp. rewrite map_data_concat in Hp.
  apply elem_of_concat in Hp as (pts & Hp & Hpts).
  apply list_elem_of_fmap in Hpts as (w & -> & _).
  unfold well_points in Hp.
  apply list_elem_of_fmap in Hp as ([form depth] & -> & _).
  cbn [pt_formation pt_color fst]. split.
  - intros color Hin. apply dict_get_present; [|done].
    vm_compute. repeat (apply NoDup_cons; split; [compute_done|]).
    apply NoDup_nil_2.
  - apply dict_get_missing.
Qed.

(** What the table section shows for a record with as many formations as
    depths. *)
Lemma show_wells_ok ws :
  Forall record_ok ws ->
  show_wells ws
  = (map (fun w => {| tb_name := well_name w; tb_x := x w; tb_y := y w;
                      tb_rows := zip (formations w) (depths w) |}) ws,
     None).
Proof.
  induction 1 as [|w ws Hw _ IH]; [done|]. simpl.
  unfold pd_DataFrame_columns. unfold record_ok in Hw.
  apply Nat.eqb_eq in Hw as ->. by rewrite IH.
Qed.

(** X20: the table section ends without exception exactly when every
    record has as many formations as depths; otherwise pandas raises
    [ValueError] at the first record that has not. *)
Theorem show_wells_raises_iff ws :
  ((show_wells ws).2 = None <-> Forall record_ok ws)
  /\ ((show_wells ws).2 = None \/ (show_wells ws).2 = Some ValueError).
Proof.
  induction ws as [|w ws [IH1 IH2]]; simpl.
  - split; [|by left]. split; [constructor|done].
  - unfold pd_DataFrame_columns.
    destruct (length (formations w) =? length (depths w))%nat eqn:Hlen.
    + apply Nat.eqb_eq in Hlen. destruct (show_wells ws) as [shown raised].
      simpl in *. split; [|done]. rewrite Forall_cons. unfold record_ok at 1.
      rewrite <- IH1. split; [by intros Hnone|by intros [_ Hnone]].
    + apply Nat.eqb_neq in Hlen. simpl. split; [|by right].
      split; [done|]. intros Hall. by apply Forall_cons in Hall as [Hw _].
Qed.

(** X21: on every reachable store the table section shows one table per
    well, in the order of the store, with one row per formation, and raises
    nothing. *)
Theorem show_wells_of_reachable ws :
  reachable ws ->
  show_wells ws
  = (map (fun w => {| tb_name := well_name w; tb_x := x w; tb_y := y w;
                      tb_rows := zip (formations w) (depths w) |}) ws,
     None)
  /\ Forall (fun w => length (zip (formations w) (depths w))
                      = length (formations w)) ws.
Proof.
  intros Hreach.
  pose proof (reachable_keeps record_ok _
                (fun v ds Hlen => new_entry_ok v ds Hlen) Hreach) as Hok.
  split; [by apply show_wells_ok|].
  eapply Forall_impl; [exact Hok|]. intros w Hw. unfold record_ok in Hw.
  rewrite length_zip. lia.
Qed.

End StoredRecords.

Lemma stored_formations_are_clean_witness :
  Forall record_clean
    (wells_data
       (store_sections (Sample.save "W0" " Top_Shale , Sand_A" "500, 750" 0)
          (fresh_run [])).2).
Proof.
  apply stored_formations_are_clean.
  exact (reach_run [] (Sample.save "W0" " Top_Shale , Sand_A" "500, 750" 0)
           reach_start).
Defined.

Lemma points_of_formation_count_witness :
  let ws := [Sample.a_well "W0"; Sample.a_well "W1"] in
  length (filter (fun p => pt_formation p = "Top_Shale") (map_data ws))
  = sum_list (map (fun w => length (filter (fun f => f = "Top_Shale")
                                      (formations w))) ws).
Proof.
  apply (points_of_formation_count
           [Sample.a_well "W0"; Sample.a_well "W1"] "Top_Shale").
  repeat (apply Forall_cons; split; [reflexivity|]). apply Forall_nil_2.
Defined.

Lemma no_points_iff_no_wells_witness :
  let ws := wells_data
              (store_sections (Sample.save "W0" "Top_Shale" "500" 0)
                 (fresh_run [])).2 in
  map_data ws = [] <-> ws = [].
Proof.
  apply no_points_iff_no_wells.
  exact (reach_run [] (Sample.save "W0" "Top_Shale" "500" 0) reach_start).
Defined.

Lemma point_colors_witness :
  let p := {| pt_well := "W0"; pt_formation := "Top_Shale";
              pt_x := Sample.zero; pt_y := Sample.zero;
              pt_depth := FloatLit.Finite false 500 0;
              pt_color := [127; 127; 127] |} in
  (forall color, (pt_formation p, color) ∈ formation_colors ->
                 pt_color p = color)
  /\ (pt_formation p ∉ map fst formation_colors -> pt_color p = [0; 0; 255]).
Proof.
  apply (point_colors [Sample.a_well "W0"]).
  vm_compute. constructor.
Defined.

Lemma show_wells_of_reachable_witness :
  let ws := wells_data
              (store_sections (Sample.save "W0" "Top_Shale, Sand_A" "500, 750" 0)
                 (fresh_run [])).2 in
  show_wells ws
  = (map (fun w => {| tb_name := well_name w; tb_x := x w; tb_y := y w;
                      tb_rows := zip (formations w) (depths w) |}) ws,
     None)
  /\ Forall (fun w => length (zip (formations w) (depths w))
                      = length (formations w)) ws.
Proof.
  apply show_wells_of_reachable.
  exact (reach_run [] (Sample.save "W0" "Top_Shale, Sand_A" "500, 750" 0)
           reach_start).
Defined.

(** ** The whole run *)

Section RunOutcome.

Context {F : Type} `{PyFloat F} `{FloatArith F}.

Implicit Types (s : run F) (v : widgets F).


(** X11: what the interpolation section does, in every state: the selected
    formation is one of the five keys; without any point the column
    selection raises [KeyError]; with points but fewer than three of the
    selected formation the warning is shown; from three on a grid of 100
    rows of 100 nodes is built for each coordinate, and nothing is shown. *)
Theorem surface_outcome v s :
  exists formation_to_plot,
    selectbox (map fst formation_colors) (formation_choice v)
    = Some formation_to_plot
    /\ formation_to_plot ∈ map fst formation_colors
    /\ match map_data (wells_data s) with
       | [] => surface_section v s = (inl (KeyError "formation"), s)
       | _ :: _ =>
           if (3 <=? length (filter (fun p => pt_formation p = formation_to_plot)
                               (map_data (wells_data s))))%nat
           then
             exists grid_x grid_y,
               surface_section v s = (inr (Some (grid_x, grid_y)), s)
               /\ length grid_x = 100%nat
               /\ Forall (fun row => length row = 100%nat) grid_x
               /\ length grid_y = 100%nat
               /\ Forall (fun row => length row = 100%nat) grid_y
           else
             surface_section v s
             = (inr None,
                {| wells_data := wells_data s;
                   page := page s ++
                     [st_warning "Need at least 3 points for interpolation."] |})
       end.
Proof.
  destruct (formation_selected v) as [formation_to_plot Hsel].
  exists formation_to_plot. split; [done|].
  split; [by apply selectbox_elem in Hsel|].
  destruct (map_data (wells_data s)) as [|p0 data] eqn:Hmd.
  - unfold surface_section, mbind, script_bind, bind, get_wells.
    rewrite Hsel, Hmd. by destruct s.
  - rewrite <- Hmd.
    destruct (3 <=? _)%nat eqn:Hmany.
    + apply Nat.leb_le in Hmany.
      destruct (surface_grid v s formation_to_plot Hsel Hmany)
        as (Hrun & Hshape).
      destruct (meshgrid _ _) as [grid_x grid_y]. by exists grid_x, grid_y.
    + apply Nat.leb_gt in Hmany.
      apply (surface_few_points v s formation_to_plot); [|done|done].
      by rewrite Hmd.
Qed.


End RunOutcome.

(** ** Smaller facts about a run *)

Section RunDetails.

Context {F : Type} `{PyFloat F}.

Implicit Types (s : run F) (v : widgets F).


(** X18: an edit that keeps the well's name leaves the list of names, and
    with it the options of both selectboxes, as it was. *)
Theorem edit_without_rename_keeps_names v edit_index s :
  valid_submission v ->
  edit_index ≠ "None" ->
  well_name_text v = edit_index ->
  names (wells_data (well_form v edit_index s).2) = names (wells_data s).
Proof.
  intros Hvalid Hedit Hname.
  destruct (valid_submission_parses v Hvalid) as (ds & Hds & Hlen).
  destruct Hvalid as (Hsub & _).
  destruct (decide (edit_index ∈ names (wells_data s))) as [Hin|Hout].
  - destruct (first_named_split _ _ Hin) as (mid & w & post & Hws & Hmid & Hw).
    rewrite (well_form_edit v edit_index s ds mid w post) by done.
    simpl. rewrite Hws, !names_app. simpl. by rewrite Hname, Hw.
  - rewrite (well_form_valid v edit_index s ds Hsub Hds Hlen).
    rewrite decide_False by done. rewrite update_existing_miss; [done|].
    apply Forall_forall. intros w Hw Heq. apply Hout. rewrite <- Heq.
    by apply list_elem_of_fmap_2.
Qed.

End RunDetails.


Lemma edit_without_rename_keeps_names_witness :
  names (wells_data
           (well_form (Sample.save "W0" "Sand_A, Sand_B" "750, 980" 1) "W0"
              (fresh_run [Sample.a_well "W0"; Sample.a_well "W1"])).2)
  = names (wells_data (fresh_run [Sample.a_well "W0"; Sample.a_well "W1"])).
Proof.
  apply (edit_without_rename_keeps_names
           (Sample.save "W0" "Sand_A, Sand_B" "750, 980" 1) "W0"
           (fresh_run [Sample.a_well "W0"; Sample.a_well "W1"])).
  - valid_sample.
  - discriminate.
  - reflexivity.
Defined.

Section GridNodes.

Context {F : Type} `{FloatArith F}.

(** X19: [linspace] with two nodes or more returns as many nodes as asked
    for, and its last node is the end point itself, not a computed value. *)
Theorem linspace_ends_at_stop (start stop : F) (n : nat) :
  length (linspace start stop (S (S n))) = S (S n)
  /\ linspace start stop (S (S n)) !! S n = Some stop.
Proof.
  split; [apply length_linspace|].
  unfold linspace. change (1 <? S (S n))%nat with true.
  change (S (S n) - 1)%nat with (S n). cbn iota.
  apply list_lookup_insert_eq. rewrite length_map.
  destruct (0 <? S n)%nat; [destruct (fis_zero _)|];
    rewrite !length_map, length_seq; lia.
Qed.

End GridNodes.
